(** * Kodrapay fraud-service: rule-based detector and payment-link validator

    A shallow embedding of [internal/fraud] (rule catalog and
    [RuleBasedFraudDetector]), [internal/repository] (the in-memory fraud
    data repository) and [internal/services] ([FraudService]) together with
    the properties the specification states about them.

    Conventions:
    - Go's [float64] is Rocq's primitive binary64 [float]; [a > b] is
      [PrimFloat.ltb b a] and [a >= b] is [PrimFloat.leb b a].
    - A Go [map[string]interface{}] is a [gmap string value]; a failed
      comma-ok type assertion is a pattern match that falls through.
    - A Go multiple return [(T, error)] is a pair [T * option error], [None]
      being the nil error; where every [return] gives either a value or an
      error, never both, it is the sum [services.result T].
    - A slice is a [list]; the nil slice and the empty slice are both [[]]. *)

From Stdlib Require Import Floats.PrimFloat Numbers.Cyclic.Int63.Uint63.
From Stdlib Require Import ZArith String Ascii List Lia DecimalString.
From stdpp Require Import base option gmap strings list.

#[local] Set Warnings "-register-all".
Open Scope string_scope.

(* ===================================================================== *)
(** ** Dynamic values and Go errors                                       *)
(* ===================================================================== *)

(** The dynamic types [encoding/json] produces for an [interface{}]. *)
Inductive value : Type :=
| VNil
| VBool (b : bool)
| VFloat (f : float)
| VString (s : string)
| VArray (l : list value)
| VObject (l : list (string * value)).

(** [err.(string)] and [err.(float64)] with the comma-ok form. *)
Definition asString (o : option value) : option string :=
  match o with Some (VString s) => Some s | _ => None end.

Definition asFloat (o : option value) : option float :=
  match o with Some (VFloat f) => Some f | _ => None end.

(** [errors.New msg] and [fmt.Errorf "...%w" inner]: the latter keeps the
    formatted message and the wrapped cause. *)
Inductive error : Type :=
| errorString (msg : string)
| wrapError (msg : string) (inner : error).

Definition Error (e : error) : string :=
  match e with errorString m => m | wrapError m _ => m end.

Definition float_of_len (n : nat) : float :=
  PrimFloat.of_uint63 (Uint63.of_Z (Z.of_nat n)).

(* ===================================================================== *)
(** ** internal/repository                                                *)
(* ===================================================================== *)

Module repository.

(** [time.Time] and [time.Duration], both counted in nanoseconds. A
    [Duration] is an [int64]; a [Time] is an instant, whose range in Go is
    far wider than 64 bits of nanoseconds, so that [Add] of a [Duration] is
    exact. *)
Definition Time := Z.
Definition Duration := Z.
Definition Hour : Duration := 3600000000000%Z.

(** The value of an [int64] computation, wrapped into [[-2^63, 2^63)]. *)
Definition wrap64 (z : Z) : Z := ((z + 2 ^ 63) mod 2 ^ 64 - 2 ^ 63)%Z.

(** [-d] on a [Duration]: the negation of [math.MinInt64] is itself. *)
Definition Duration_neg (d : Duration) : Duration := wrap64 (- d).

(** [t.Add(d)] and [t.After(u)]. *)
Definition Time_Add (t : Time) (d : Duration) : Time := (t + d)%Z.
Definition Time_After (t u : Time) : bool := (u <? t)%Z.

Record TransactionRecord := {
  ID : string;
  Amount : float;
  Currency : string;
  Timestamp : Time
}.

(** The interface [FraudDataRepository]. *)
Class FraudDataRepository (R : Type) := {
  GetTransactionHistory : R -> string -> Duration -> list TransactionRecord * option error;
  GetIPData : R -> string -> option (gmap string value) * option error;
  GetDeviceData : R -> string -> option (gmap string value) * option error
}.

(** [InMemoryFraudDataRepository]; [now] is what [time.Now()] reads when
    the repository is queried. *)
Record InMemoryFraudDataRepository := {
  transactions : gmap string (list TransactionRecord);
  ipData : gmap string (gmap string value);
  deviceData : gmap string (gmap string value);
  now : Time
}.

Definition NewInMemoryFraudDataRepository (clock : Time) : InMemoryFraudDataRepository :=
  {| transactions := ∅; ipData := ∅; deviceData := ∅; now := clock |}.

Definition InMemory_GetTransactionHistory (r : InMemoryFraudDataRepository)
    (customerID : string) (lookback : Duration)
    : list TransactionRecord * option error :=
  match transactions r !! customerID with
  | Some txns =>
      let cutoff := Time_Add (now r) (Duration_neg lookback) in
      (List.filter (fun txn => Time_After (Timestamp txn) cutoff) txns, None)
  | None => ([], None)
  end.

Definition InMemory_GetIPData (r : InMemoryFraudDataRepository) (ipAddress : string)
    : option (gmap string value) * option error :=
  match ipData r !! ipAddress with
  | Some data => (Some data, None)
  | None => (None, None)
  end.

Definition InMemory_GetDeviceData (r : InMemoryFraudDataRepository) (deviceID : string)
    : option (gmap string value) * option error :=
  match deviceData r !! deviceID with
  | Some data => (Some data, None)
  | None => (None, None)
  end.

#[export] Instance InMemory_repo : FraudDataRepository InMemoryFraudDataRepository := {
  GetTransactionHistory := InMemory_GetTransactionHistory;
  GetIPData := InMemory_GetIPData;
  GetDeviceData := InMemory_GetDeviceData
}.

Definition AddTransaction (r : InMemoryFraudDataRepository) (customerID : string)
    (txn : TransactionRecord) : InMemoryFraudDataRepository :=
  {| transactions :=
       <[customerID := (default [] (transactions r !! customerID) ++ [txn])%list]> (transactions r);
     ipData := ipData r; deviceData := deviceData r; now := now r |}.

Definition AddIPData (r : InMemoryFraudDataRepository) (ipAddress : string)
    (data : gmap string value) : InMemoryFraudDataRepository :=
  {| transactions := transactions r;
     ipData := <[ipAddress := data]> (ipData r);
     deviceData := deviceData r; now := now r |}.

End repository.

(* ===================================================================== *)
(** ** internal/fraud: rules and decisions                                *)
(* ===================================================================== *)

Module FraudRule.
Record t := {
  ID : string;
  Description : string;
  Threshold : float;
  ScoreImpact : float;
  Decision : string;
  Enabled : bool;
  Predicate : gmap string value -> bool * option error
}.
End FraudRule.

Module FraudDecision.
Record t := {
  OverallScore : float;
  Decision : string;
  Reasons : list string
}.
End FraudDecision.

Module fraud.
Import repository.

(** The zero value [FraudDecision{}]. *)
Definition zeroDecision : FraudDecision.t :=
  {| FraudDecision.OverallScore := 0%float;
     FraudDecision.Decision := "";
     FraudDecision.Reasons := [] |}.

Definition highAmountPredicate (transactionData : gmap string value) : bool * option error :=
  match asFloat (transactionData !! "amount") with
  | Some amount => (PrimFloat.ltb 1000%float amount, None)
  | None => (false, None)
  end.

Definition suspiciousIPPredicate (transactionData : gmap string value) : bool * option error :=
  match asString (transactionData !! "origin") with
  | Some origin => (String.eqb origin "suspicious_ip", None)
  | None => (false, None)
  end.

Definition highVelocityPredicate (transactionData : gmap string value) : bool * option error :=
  (false, None).

Definition highAmountRule : FraudRule.t :=
  {| FraudRule.ID := "HIGH_AMOUNT_TRANSACTION";
     FraudRule.Description := "Flags transactions with amounts exceeding a high threshold.";
     FraudRule.Threshold := 1000%float;
     FraudRule.ScoreImpact := 50%float;
     FraudRule.Decision := "flag";
     FraudRule.Enabled := true;
     FraudRule.Predicate := highAmountPredicate |}.

Definition suspiciousIPRule : FraudRule.t :=
  {| FraudRule.ID := "SUSPICIOUS_IP_ORIGIN";
     FraudRule.Description := "Flags transactions originating from suspicious IP addresses.";
     FraudRule.Threshold := 1%float;
     FraudRule.ScoreImpact := 70%float;
     FraudRule.Decision := "flag";
     FraudRule.Enabled := true;
     FraudRule.Predicate := suspiciousIPPredicate |}.

Definition highVelocityRule : FraudRule.t :=
  {| FraudRule.ID := "HIGH_VELOCITY_CUSTOMER";
     FraudRule.Description := "Flags customers with unusually high transaction velocity.";
     FraudRule.Threshold := 5%float;
     FraudRule.ScoreImpact := 60%float;
     FraudRule.Decision := "flag";
     FraudRule.Enabled := true;
     FraudRule.Predicate := highVelocityPredicate |}.

Definition DefaultRules : list FraudRule.t :=
  [highAmountRule; suspiciousIPRule; highVelocityRule].

(* --------------------------------------------------------------------- *)
(** *** The detector                                                      *)
(* --------------------------------------------------------------------- *)

Record RuleBasedFraudDetector (R : Type) := {
  repo : R;
  rules : list FraudRule.t
}.
Arguments repo {R} _.
Arguments rules {R} _.

Definition NewRuleBasedFraudDetector {R : Type} (repo : R) (rules : list FraudRule.t)
    : RuleBasedFraudDetector R :=
  let rules := if Nat.eqb (length rules) 0 then DefaultRules else rules in
  {| repo := repo; rules := rules |}.

(** The [switch rule.ID] of the loop body: the pair is [(isTriggered, e)]
    where [e] is the error the body returns with, if any. *)
Definition evalTrigger {R : Type} `{FraudDataRepository R} (d : R)
    (transactionData : gmap string value) (rule : FraudRule.t) : bool * option error :=
  if String.eqb (FraudRule.ID rule) "HIGH_VELOCITY_CUSTOMER" then
    match asString (transactionData !! "customer_id") with
    | Some customerID =>
        match GetTransactionHistory d customerID (24 * Hour)%Z with
        | (_, Some repoErr) =>
            (false, Some (wrapError ("failed to get transaction history for rule "
                                       ++ FraudRule.ID rule ++ ": " ++ Error repoErr) repoErr))
        | (history, None) =>
            (PrimFloat.ltb (FraudRule.Threshold rule) (float_of_len (length history)), None)
        end
    | None => (false, None)
    end
  else if String.eqb (FraudRule.ID rule) "SUSPICIOUS_IP_ORIGIN" then
    match asString (transactionData !! "origin") with
    | Some origin =>
        match GetIPData d origin with
        | (_, Some repoErr) =>
            (false, Some (wrapError ("failed to get IP data for rule "
                                       ++ FraudRule.ID rule ++ ": " ++ Error repoErr) repoErr))
        | (ipData, None) =>
            (match ipData with
             | Some m => match m !! "is_vpn" with Some (VBool true) => true | _ => false end
             | None => false
             end || String.eqb origin "suspicious_ip", None)
        end
    | None => (false, None)
    end
  else
    match FraudRule.Predicate rule transactionData with
    | (_, Some err) =>
        (false, Some (wrapError ("error evaluating rule "
                                   ++ FraudRule.ID rule ++ ": " ++ Error err) err))
    | (isTriggered, None) => (isTriggered, None)
    end.

(** The variables the loop updates. *)
Record loopState := {
  totalScore : float;
  decision : FraudDecision.t
}.

(** How one iteration of the [for] loop ends: fall through to the next
    rule, [break], or [return FraudDecision{}, err]. *)
Inductive control :=
| Next (st : loopState)
| Break (st : loopState)
| Return (e : error).

Definition setDecision (d : FraudDecision.t) (s : string) : FraudDecision.t :=
  {| FraudDecision.OverallScore := FraudDecision.OverallScore d;
     FraudDecision.Decision := s;
     FraudDecision.Reasons := FraudDecision.Reasons d |}.

Definition appendReason (d : FraudDecision.t) (s : string) : FraudDecision.t :=
  {| FraudDecision.OverallScore := FraudDecision.OverallScore d;
     FraudDecision.Decision := FraudDecision.Decision d;
     FraudDecision.Reasons := (FraudDecision.Reasons d ++ [s])%list |}.

Definition setOverallScore (d : FraudDecision.t) (x : float) : FraudDecision.t :=
  {| FraudDecision.OverallScore := x;
     FraudDecision.Decision := FraudDecision.Decision d;
     FraudDecision.Reasons := FraudDecision.Reasons d |}.

Definition ruleBody {R : Type} `{FraudDataRepository R} (d : R)
    (transactionData : gmap string value) (rule : FraudRule.t) (st : loopState) : control :=
  if negb (FraudRule.Enabled rule) then Next st
  else
    match evalTrigger d transactionData rule with
    | (_, Some e) => Return e
    | (isTriggered, None) =>
        if isTriggered then
          let totalScore := PrimFloat.add (totalScore st) (FraudRule.ScoreImpact rule) in
          let decision := appendReason (decision st) (FraudRule.Description rule) in
          if String.eqb (FraudRule.Decision rule) "deny" then
            Break {| totalScore := totalScore; decision := setDecision decision "deny" |}
          else if String.eqb (FraudRule.Decision rule) "flag"
                  && negb (String.eqb (FraudDecision.Decision decision) "deny") then
            Next {| totalScore := totalScore; decision := setDecision decision "flag" |}
          else
            Next {| totalScore := totalScore; decision := decision |}
        else Next st
    end.

Fixpoint ruleLoop {R : Type} `{FraudDataRepository R} (d : R)
    (transactionData : gmap string value) (rules : list FraudRule.t) (st : loopState)
    : control :=
  match rules with
  | [] => Next st
  | rule :: rest =>
      match ruleBody d transactionData rule st with
      | Next st' => ruleLoop d transactionData rest st'
      | Break st' => Break st'
      | Return e => Return e
      end
  end.

Definition initState : loopState :=
  {| totalScore := 0%float;
     decision := {| FraudDecision.OverallScore := 0%float;
                    FraudDecision.Decision := "approve";
                    FraudDecision.Reasons := [] |} |}.

(** The code after the loop. *)
Definition finalDecision (st : loopState) : FraudDecision.t :=
  let decision := setOverallScore (decision st) (totalScore st) in
  if negb (String.eqb (FraudDecision.Decision decision) "deny") then
    if PrimFloat.leb 100%float (totalScore st) then setDecision decision "deny"
    else if PrimFloat.leb 50%float (totalScore st) then setDecision decision "flag"
    else decision
  else decision.

Definition CheckTransaction {R : Type} `{FraudDataRepository R}
    (d : RuleBasedFraudDetector R) (transactionData : gmap string value)
    : FraudDecision.t * option error :=
  match ruleLoop (repo d) transactionData (rules d) initState with
  | Return e => (zeroDecision, Some e)
  | Next st | Break st => (finalDecision st, None)
  end.

End fraud.

(* ===================================================================== *)
(** ** internal/dto and internal/services                                 *)
(* ===================================================================== *)

Module dto.

Record RiskEvaluateRequest := {
  TransactionReference : string;
  Amount : float;
  Currency : string;
  CustomerID : string;
  MerchantID : string
}.

Record RiskEvaluateResponse := {
  Score : float;
  Decision : string
}.

End dto.

Module services.

(** A call that returns a pointer or a value together with an [error],
    exactly one of the two being meaningful: every [return] of such a function in the source
    gives either a value and [nil], or a zero value and an error. *)
Inductive result (T : Type) : Type :=
| Ok (v : T)
| Err (e : error).
Arguments Ok {T} _.
Arguments Err {T} _.

Record TransactionResponse := {
  ID : Z;
  Reference : string;
  MerchantID : Z;
  CustomerEmail : string;
  CustomerID : Z;
  CustomerName : string;
  Amount : Z;
  Currency : string;
  Status : string;
  Description : string;
  CreatedAt : Z
}.

(** [url.Values] and its method [Get]: the first value of the key, or the
    empty string. *)
Definition Values := gmap string (list string).

Definition Values_Get (v : Values) (key : string) : string :=
  match v !! key with
  | Some (x :: _) => x
  | _ => ""
  end.

(** What the service uses of Go's standard library, as an interface:
    [url.Parse], the method [Query] of a URL, [strconv.Atoi], [strconv.ParseInt s 10 64],
    [os.Getenv], [http.NewRequestWithContext] (on a GET of the given URL;
    [Some] is its error) and [json.NewDecoder(body).Decode] into a
    [TransactionResponse]. *)
Class GoLib := {
  URL : Type;
  url_Parse : string -> result URL;
  URL_Query : URL -> Values;
  strconv_Atoi : string -> result Z;
  strconv_ParseInt : string -> result Z;
  os_Getenv : string -> string;
  http_NewRequest : string -> option error;
  json_Decode : string -> result TransactionResponse
}.

(** An HTTP response as the service reads it: the status code and the
    bytes of the body. *)
Record Response := {
  StatusCode : Z;
  Body : string
}.

(** The network behind [http.DefaultClient]: [transport] answers a GET of
    a URL, [requests] is the log of the URLs sent so far. *)
Record Network := {
  transport : string -> result Response;
  requests : list string
}.

Definition http_Do (net : Network) (url : string) : result Response * Network :=
  (transport net url,
   {| transport := transport net; requests := (requests net ++ [url])%list |}).

(** [fmt]'s verb [%d]. *)
Definition fmt_d (z : Z) : string := NilZero.string_of_int (Z.to_int z).

(** [strings.TrimRight s "/"]. *)
Fixpoint TrimRight_slash (s : string) : string :=
  match s with
  | EmptyString => EmptyString
  | String c rest =>
      let r := TrimRight_slash rest in
      if String.eqb r "" && Ascii.eqb c "/" then EmptyString else String c r
  end.

(** [strings.Contains s substr]. *)
Fixpoint Contains (s substr : string) : bool :=
  String.prefix substr s ||
  match s with
  | EmptyString => false
  | String _ rest => Contains rest substr
  end.

Record FraudService (D : Type) := {
  detector : D;
  transactionServiceURL : string
}.
Arguments detector {D} _.
Arguments transactionServiceURL {D} _.

Definition Evaluate {D : Type} (s : FraudService D) (req : dto.RiskEvaluateRequest)
    : dto.RiskEvaluateResponse :=
  {| dto.Score := 0x1.999999999999ap-4%float; dto.Decision := "approve" |}.

Definition Rules {D : Type} (s : FraudService D) : list string :=
  ["velocity_check"; "ip_blacklist"].

Section WithGoLib.
Context `{GoLib}.

Definition NewFraudService {D : Type} (detector : D) (transactionServiceURL : string)
    : FraudService D :=
  let transactionServiceURL :=
    if String.eqb transactionServiceURL "" then
      let fromEnv := os_Getenv "TRANSACTION_SERVICE_URL" in
      if String.eqb fromEnv "" then "http://transaction-service:7000" else fromEnv
    else transactionServiceURL in
  {| detector := detector; transactionServiceURL := transactionServiceURL |}.

Definition GetTransactionDetailsByReference {D : Type} (s : FraudService D)
    (net : Network) (reference : string) : result TransactionResponse * Network :=
  if String.eqb (transactionServiceURL s) "" then
    (Err (errorString "transaction service URL not configured"), net)
  else
    let url := TrimRight_slash (transactionServiceURL s) ++ "/transactions/" ++ reference in
    match http_NewRequest url with
    | Some err =>
        (Err (wrapError ("failed to create request to transaction service: " ++ Error err) err),
         net)
    | None =>
        let '(r, net') := http_Do net url in
        match r with
        | Err err =>
            (Err (wrapError ("failed to get transaction from transaction service: "
                               ++ Error err) err), net')
        | Ok resp =>
            if (StatusCode resp =? 404)%Z then
              (Err (errorString ("transaction with reference " ++ reference ++ " not found")),
               net')
            else if negb (StatusCode resp =? 200)%Z then
              (Err (errorString ("transaction service returned status "
                                   ++ fmt_d (StatusCode resp) ++ ": " ++ Body resp)), net')
            else
              match json_Decode (Body resp) with
              | Err err =>
                  (Err (wrapError
                          ("failed to decode transaction response from transaction service: "
                             ++ Error err) err), net')
              | Ok transactionResponse => (Ok transactionResponse, net')
              end
        end
    end.

Definition ValidatePaymentLink {D : Type} (s : FraudService D) (net : Network)
    (linkUrl : string) : (bool * string * option error) * Network :=
  match url_Parse linkUrl with
  | Err _ => ((true, "Invalid payment link URL format", None), net)
  | Ok parsedURL =>
      let queryParams := URL_Query parsedURL in
      let ref := Values_Get queryParams "ref" in
      let merchantIDStr := Values_Get queryParams "merchant_id" in
      let amountStr := Values_Get queryParams "amount" in
      let currency := Values_Get queryParams "currency" in
      if String.eqb ref "" || String.eqb merchantIDStr "" || String.eqb amountStr ""
         || String.eqb currency "" then
        ((true, "Missing required parameters in payment link (ref, merchant_id, amount, currency)",
          None), net)
      else
        match strconv_Atoi merchantIDStr with
        | Err _ => ((true, "Invalid merchant_id format in payment link", None), net)
        | Ok merchantID =>
            match strconv_ParseInt amountStr with
            | Err _ => ((true, "Invalid amount format in payment link", None), net)
            | Ok amount =>
                let '(r, net') := GetTransactionDetailsByReference s net ref in
                match r with
                | Err err =>
                    if Contains (Error err) "not found" then
                      ((true, "Transaction reference " ++ ref ++ " not found for payment link",
                        None), net')
                    else
                      ((true, "Error fetching original transaction details: " ++ Error err,
                        None), net')
                | Ok originalTx =>
                    if negb (MerchantID originalTx =? merchantID)%Z then
                      ((true, "Merchant ID mismatch: link has " ++ fmt_d merchantID
                                ++ ", original has " ++ fmt_d (MerchantID originalTx), None),
                       net')
                    else if negb (Amount originalTx =? amount)%Z then
                      ((true, "Amount mismatch: link has " ++ fmt_d amount
                                ++ ", original has " ++ fmt_d (Amount originalTx), None), net')
                    else if negb (String.eqb (Currency originalTx) currency) then
                      ((true, "Currency mismatch: link has " ++ currency
                                ++ ", original has " ++ Currency originalTx, None), net')
                    else
                      ((false, "Payment link is legitimate", None), net')
                end
            end
        end
  end.

(** [FraudService.TrackPaymentLink]: the link data is the decoded request
    body. *)
Definition TrackPaymentLink {D : Type} (s : FraudService D) (net : Network)
    (linkData : gmap string value) : (bool * string * option error) * Network :=
  match asString (linkData !! "url") with
  | Some urlStr =>
      if String.eqb urlStr "" then
        ((true, "Invalid or missing URL in link data", None), net)
      else ValidatePaymentLink s net urlStr
  | None => ((true, "Invalid or missing URL in link data", None), net)
  end.

End WithGoLib.

End services.

(* ===================================================================== *)
(** ** Predicates of the specification                                    *)
(* ===================================================================== *)

Module spec.
Import repository fraud.

(** The field a rule reads is missing from the event data or does not have
    the dynamic type the rule asserts: [customer_id] and [origin] are read
    by the two rules the detector special-cases by [ID], [amount] by the
    predicate of the default high-amount rule. *)
Definition fieldUnusable (transactionData : gmap string value) (r : FraudRule.t) : Prop :=
  (FraudRule.ID r = "HIGH_VELOCITY_CUSTOMER"
   /\ asString (transactionData !! "customer_id") = None)
  \/ (FraudRule.ID r = "SUSPICIOUS_IP_ORIGIN"
      /\ asString (transactionData !! "origin") = None)
  \/ (r = highAmountRule /\ asFloat (transactionData !! "amount") = None).

(** The evaluation of rule [r] fails with [e] because a fetch from the
    data repository failed. *)
Definition fetchFailure {R : Type} `{FraudDataRepository R} (d : R)
    (transactionData : gmap string value) (r : FraudRule.t) (e : error) : Prop :=
  (FraudRule.ID r = "HIGH_VELOCITY_CUSTOMER"
   /\ exists customerID history repoErr,
        asString (transactionData !! "customer_id") = Some customerID
        /\ GetTransactionHistory d customerID (24 * Hour)%Z = (history, Some repoErr)
        /\ e = wrapError ("failed to get transaction history for rule "
                            ++ FraudRule.ID r ++ ": " ++ Error repoErr) repoErr)
  \/ (FraudRule.ID r = "SUSPICIOUS_IP_ORIGIN"
      /\ exists origin ipData repoErr,
           asString (transactionData !! "origin") = Some origin
           /\ GetIPData d origin = (ipData, Some repoErr)
           /\ e = wrapError ("failed to get IP data for rule "
                               ++ FraudRule.ID r ++ ": " ++ Error repoErr) repoErr).

(** The evaluation of rule [r] fails with [e] because the rule's own
    predicate returned an error. *)
Definition predicateFailure (transactionData : gmap string value) (r : FraudRule.t)
    (e : error) : Prop :=
  FraudRule.ID r <> "HIGH_VELOCITY_CUSTOMER"
  /\ FraudRule.ID r <> "SUSPICIOUS_IP_ORIGIN"
  /\ exists b err,
       FraudRule.Predicate r transactionData = (b, Some err)
       /\ e = wrapError ("error evaluating rule " ++ FraudRule.ID r ++ ": " ++ Error err) err.

(** The decision string the rule hints leave in the loop state when no
    rule has denied: ["approve"] or ["flag"]. *)
Definition undecided (st : loopState) : Prop :=
  FraudDecision.Decision (decision st) = "approve"
  \/ FraudDecision.Decision (decision st) = "flag".

(** The four required query parameters of a payment link; a parameter
    that is absent reads as the empty string. *)
Definition parametersPresent (q : services.Values) : Prop :=
  services.Values_Get q "ref" <> ""
  /\ services.Values_Get q "merchant_id" <> ""
  /\ services.Values_Get q "amount" <> ""
  /\ services.Values_Get q "currency" <> "".

Definition parameterMissing (q : services.Values) : Prop :=
  services.Values_Get q "ref" = ""
  \/ services.Values_Get q "merchant_id" = ""
  \/ services.Values_Get q "amount" = ""
  \/ services.Values_Get q "currency" = "".

(** The reason string contains the text [v]. *)
Definition mentions (reason v : string) : Prop := services.Contains reason v = true.

Definition mismatchReason (what linkValue originalValue : string) : string :=
  what ++ " mismatch: link has " ++ linkValue ++ ", original has " ++ originalValue.

(** The validator's answer is a mismatch on [what] that shows the value of
    the link and the value of the authoritative transaction. *)
Definition reportsMismatch (answer : bool * string * option error)
    (what linkValue originalValue : string) : Prop :=
  answer = (true, mismatchReason what linkValue originalValue, None)
  /\ mentions (snd (fst answer)) linkValue
  /\ mentions (snd (fst answer)) originalValue.

End spec.

(* ===================================================================== *)
(** ** Concrete catalogs, repositories and environments                   *)
(* ===================================================================== *)

Module fixtures.
Import repository fraud services.

(** [{customer_id:"c1", amount:1500.0, currency:"NGN", origin:"suspicious_ip"}] *)
Definition event_c1 : gmap string value :=
  <["customer_id" := VString "c1"]>
    (<["amount" := VFloat 1500%float]>
       (<["currency" := VString "NGN"]>
          (<["origin" := VString "suspicious_ip"]> ∅))).

(** The same event with [amount] sent as a string and no [origin]. *)
Definition event_mistyped : gmap string value :=
  <["customer_id" := VString "c1"]>
    (<["amount" := VString "1500"]> (<["currency" := VString "NGN"]> ∅)).

(** A rule that denies every event. *)
Definition blockAllRule : FraudRule.t :=
  {| FraudRule.ID := "BLOCK_ALL";
     FraudRule.Description := "Denies every transaction.";
     FraudRule.Threshold := 0%float;
     FraudRule.ScoreImpact := 10%float;
     FraudRule.Decision := "deny";
     FraudRule.Enabled := true;
     FraudRule.Predicate := fun _ => (true, None) |}.

(** A rule whose predicate insists on a [device_id]. *)
Definition deviceRule : FraudRule.t :=
  {| FraudRule.ID := "EMULATED_DEVICE";
     FraudRule.Description := "Flags transactions sent from an emulator.";
     FraudRule.Threshold := 0%float;
     FraudRule.ScoreImpact := 20%float;
     FraudRule.Decision := "flag";
     FraudRule.Enabled := true;
     FraudRule.Predicate := fun transactionData =>
       match asString (transactionData !! "device_id") with
       | Some dev => (String.eqb dev "emulator", None)
       | None => (false, Some (errorString "device_id is missing"))
       end |}.

(** A repository whose backing store cannot be reached. *)
Inductive UnreachableRepository := unreachable.

#[export] Instance Unreachable_repo : FraudDataRepository UnreachableRepository := {
  GetTransactionHistory := fun _ _ _ => ([], Some (errorString "connection refused"));
  GetIPData := fun _ _ => (None, Some (errorString "connection refused"));
  GetDeviceData := fun _ _ => (None, Some (errorString "connection refused"))
}.

Definition emptyRepo : InMemoryFraudDataRepository := NewInMemoryFraudDataRepository 0%Z.

(** *** A standard library for the payment-link examples

    Enough of [net/url], [strconv] and [encoding/json] to run the
    validator on links without escapes: [url.Parse] rejects ASCII control
    characters, the query is what follows the first [?], its fields are
    separated by [&] and split at their first [=]. *)

Definition isControl (c : ascii) : bool :=
  (nat_of_ascii c <? 32)%nat || (nat_of_ascii c =? 127)%nat.

Fixpoint hasControl (s : string) : bool :=
  match s with
  | EmptyString => false
  | String c rest => isControl c || hasControl rest
  end.

(** The text before the first [sep] and, if [sep] occurs, the text after. *)
Fixpoint cut (sep : ascii) (s : string) : string * option string :=
  match s with
  | EmptyString => (EmptyString, None)
  | String c rest =>
      if Ascii.eqb c sep then (EmptyString, Some rest)
      else let '(before, after) := cut sep rest in (String c before, after)
  end.

Fixpoint fields (sep : ascii) (s : string) : list string :=
  match s with
  | EmptyString => [EmptyString]
  | String c rest =>
      if Ascii.eqb c sep then EmptyString :: fields sep rest
      else match fields sep rest with
           | x :: xs => String c x :: xs
           | [] => [String c EmptyString]
           end
  end.

Definition addField (kv : string) (m : Values) : Values :=
  if String.eqb kv "" then m
  else
    let '(k, v) := cut "=" kv in
    <[k := default "" v :: default [] (m !! k)]> m.

Definition parseQuery (rawQuery : string) : Values :=
  foldr addField ∅ (fields "&" rawQuery).

Definition parseURL (s : string) : result string :=
  if hasControl s then Err (errorString "net/url: invalid control character in URL")
  else Ok (default "" (snd (cut "?" s))).

Definition digit (c : ascii) : option Z :=
  let n := nat_of_ascii c in
  if (48 <=? n)%nat && (n <=? 57)%nat then Some (Z.of_nat (n - 48)) else None.

Fixpoint digits (acc : Z) (s : string) : option Z :=
  match s with
  | EmptyString => Some acc
  | String c rest =>
      match digit c with
      | Some x => digits (10 * acc + x)%Z rest
      | None => None
      end
  end.

(** A signed decimal numeral that fits 64 bits. *)
Definition parseInt64 (s : string) : result Z :=
  let '(negative, body) :=
    match s with
    | String "-" rest => (true, rest)
    | String "+" rest => (false, rest)
    | _ => (false, s)
    end in
  match body, digits 0 body with
  | String _ _, Some n =>
      let z := if negative then (- n)%Z else n in
      if (- 2 ^ 63 <=? z)%Z && (z <? 2 ^ 63)%Z then Ok z
      else Err (errorString "value out of range")
  | _, _ => Err (errorString "invalid syntax")
  end.

(** The record the transaction service holds for reference [tx1], and the
    JSON body it answers with. *)
Definition tx1 : TransactionResponse :=
  {| ID := 1; Reference := "tx1"; MerchantID := 5; CustomerEmail := "a@example.com";
     CustomerID := 7; CustomerName := ""; Amount := 1000; Currency := "NGN";
     Status := "pending"; Description := ""; CreatedAt := 0 |}.

Definition tx1_body : string := "{tx1}".

Definition decodeBody (body : string) : result TransactionResponse :=
  if String.eqb body tx1_body then Ok tx1
  else Err (errorString "invalid character in response body").

#[export] Instance exampleLib : GoLib := {
  URL := string;
  url_Parse := parseURL;
  URL_Query := parseQuery;
  strconv_Atoi := parseInt64;
  strconv_ParseInt := parseInt64;
  os_Getenv := fun _ => "";
  http_NewRequest := fun url =>
    if hasControl url then Some (errorString "net/url: invalid control character in URL")
    else None;
  json_Decode := decodeBody
}.

(** A transaction service that knows [tx1] only. *)
Definition oneTransactionNet : Network :=
  {| transport := fun url =>
       if String.eqb url "http://transaction-service:7000/transactions/tx1"
       then Ok {| StatusCode := 200; Body := tx1_body |}
       else Ok {| StatusCode := 404; Body := "" |};
     requests := [] |}.

(** A transaction service that cannot be reached. *)
Definition downNet : Network :=
  {| transport := fun _ => Err (errorString "dial tcp: connection refused");
     requests := [] |}.

Definition exampleService : FraudService unit :=
  NewFraudService tt "".

Definition link_tx1 : string :=
  "https://pay.example.com/pay?ref=tx1&merchant_id=5&amount=1000&currency=NGN".

Definition link_no_amount : string :=
  "https://pay.example.com/pay?ref=tx1&merchant_id=5&currency=NGN".

End fixtures.

(* ===================================================================== *)
(** ** internal/fraud: the other operations of the detector              *)
(* ===================================================================== *)

(** The interface [FraudDetector]. *)
Module FraudDetector.
Class t (D : Type) := {
  CheckTransaction : D -> gmap string value -> FraudDecision.t * option error;
  TrackPaymentLink : D -> gmap string value -> bool * string * option error;
  ValidatePaymentChannel : D -> gmap string value -> bool * string * option error
}.
End FraudDetector.

Module detector_ops.
Import repository fraud.

Definition containsSuspiciousPattern (link : string) : bool := false.

Definition TrackPaymentLink {R : Type} (d : RuleBasedFraudDetector R)
    (linkData : gmap string value) : bool * string * option error :=
  match asString (linkData !! "url") with
  | Some link =>
      if String.eqb link "" then
        (false, "", Some (errorString "payment link URL is missing or invalid"))
      else if String.eqb link "http://malicious-site.com" then
        (true, "Payment link " ++ link ++ " is on a blacklisted domain", None)
      else if containsSuspiciousPattern link then
        (true, "Payment link " ++ link ++ " contains suspicious patterns", None)
      else (false, "Payment link appears safe", None)
  | None => (false, "", Some (errorString "payment link URL is missing or invalid"))
  end.

Definition ValidatePaymentChannel {R : Type} (d : RuleBasedFraudDetector R)
    (channelData : gmap string value) : bool * string * option error :=
  match asString (channelData !! "channel_type") with
  | None => (false, "", Some (errorString "payment channel type is missing or invalid"))
  | Some channel =>
      if String.eqb channel "" then
        (false, "", Some (errorString "payment channel type is missing or invalid"))
      else
        match asString (channelData !! "transaction_id") with
        | None => (false, "", Some (errorString "transaction ID is missing or invalid"))
        | Some transactionID =>
            if String.eqb transactionID "" then
              (false, "", Some (errorString "transaction ID is missing or invalid"))
            else if String.eqb channel "credit_card" then
              if String.eqb transactionID "fraud_cc_txn_123" then
                (true, "Transaction " ++ transactionID ++ " via credit card is fraudulent", None)
              else (false, "Payment channel transaction validated", None)
            else if String.eqb channel "bank_transfer" then
              if String.eqb transactionID "fraud_bank_txn_456" then
                (true, "Transaction " ++ transactionID ++ " via bank transfer is fraudulent",
                 None)
              else (false, "Payment channel transaction validated", None)
            else (false, "Unsupported or unknown payment channel: " ++ channel, None)
        end
  end.

#[export] Instance RuleBased_detector {R : Type} `{FraudDataRepository R}
    : FraudDetector.t (RuleBasedFraudDetector R) := {
  FraudDetector.CheckTransaction := CheckTransaction;
  FraudDetector.TrackPaymentLink := TrackPaymentLink;
  FraudDetector.ValidatePaymentChannel := ValidatePaymentChannel
}.

(** A copy of a rule with another predicate. *)
Definition withPredicate (r : FraudRule.t)
    (p : gmap string value -> bool * option error) : FraudRule.t :=
  {| FraudRule.ID := FraudRule.ID r;
     FraudRule.Description := FraudRule.Description r;
     FraudRule.Threshold := FraudRule.Threshold r;
     FraudRule.ScoreImpact := FraudRule.ScoreImpact r;
     FraudRule.Decision := FraudRule.Decision r;
     FraudRule.Enabled := FraudRule.Enabled r;
     FraudRule.Predicate := p |}.

(** The descriptions of the enabled rules of a catalog, in catalog order. *)
Definition enabledDescriptions (rules : list FraudRule.t) : list string :=
  List.map FraudRule.Description (List.filter FraudRule.Enabled rules).

(** Every rule of the catalog hints ["flag"] or ["deny"]. *)
Definition allHinted (rules : list FraudRule.t) : Prop :=
  forall r, In r rules -> FraudRule.Decision r = "flag" \/ FraudRule.Decision r = "deny".

End detector_ops.

(* ===================================================================== *)
(** ** internal/repository: the remaining seeding helper                  *)
(* ===================================================================== *)

Module repository_ops.
Import repository.


(** The records [GetTransactionHistory] keeps: those stamped after the
    cutoff [time.Now().Add(-lookback)]. *)
Definition recent (r : InMemoryFraudDataRepository) (lookback : Duration)
    (txn : TransactionRecord) : bool :=
  Time_After (Timestamp txn) (Time_Add (now r) (Duration_neg lookback)).

End repository_ops.

(* ===================================================================== *)
(** ** internal/services: the delegating operations                       *)
(* ===================================================================== *)

Module service_ops.
Import services.

Section WithDetector.
Context {D : Type} `{FraudDetector.t D}.

Definition CheckTransaction (s : FraudService D) (transactionData : gmap string value)
    : FraudDecision.t * option error :=
  match FraudDetector.CheckTransaction (detector s) transactionData with
  | (_, Some err) => (fraud.zeroDecision, Some err)
  | (decision, None) => (decision, None)
  end.

Definition ValidatePaymentChannel (s : FraudService D) (channelData : gmap string value)
    : bool * string * option error :=
  match FraudDetector.ValidatePaymentChannel (detector s) channelData with
  | (_, _, Some err) => (false, "", Some err)
  | (isValid, reason, None) => (isValid, reason, None)
  end.

End WithDetector.

End service_ops.

(* ===================================================================== *)
(** ** internal/handlers: the fraud API                                   *)
(* ===================================================================== *)

Module handlers.
Import services.

(** What a handler returns with: [fiber.NewError(code, message)] or
    [c.JSON(payload)] for one of the payloads the handlers send. *)
Inductive reply : Type :=
| NewError (code : Z) (message : string)
| JSON_decision (d : FraudDecision.t)
| JSON_map (m : gmap string value)
| JSON_transaction (tx : TransactionResponse).

Definition StatusBadRequest : Z := 400.
Definition StatusNotFound : Z := 404.
Definition StatusInternalServerError : Z := 500.

Record FraudAPIHandler (D : Type) := {
  svc : FraudService D
}.
Arguments svc {D} _.

Definition NewFraudAPIHandler {D : Type} (svc : FraudService D) : FraudAPIHandler D :=
  {| svc := svc |}.

Section WithDetector.
Context {D : Type} `{FraudDetector.t D} `{GoLib}.

(** [body] is what [c.BodyParser] decoded into the map, [None] if it
    failed. *)
Definition CheckTransaction (h : FraudAPIHandler D) (body : option (gmap string value))
    : reply :=
  match body with
  | None => NewError StatusBadRequest "Invalid request body"
  | Some transactionData =>
      match asString (transactionData !! "customer_id") with
      | None => NewError StatusBadRequest "customer_id is required and must be a string"
      | Some customerID =>
          if String.eqb customerID "" then
            NewError StatusBadRequest "customer_id is required and must be a string"
          else
            match asFloat (transactionData !! "amount") with
            | None =>
                NewError StatusBadRequest "amount is required and must be a positive number"
            | Some amount =>
                if PrimFloat.leb amount 0%float then
                  NewError StatusBadRequest "amount is required and must be a positive number"
                else
                  match asString (transactionData !! "currency") with
                  | None =>
                      NewError StatusBadRequest "currency is required and must be a string"
                  | Some currency =>
                      if String.eqb currency "" then
                        NewError StatusBadRequest "currency is required and must be a string"
                      else
                        match service_ops.CheckTransaction (svc h) transactionData with
                        | (_, Some err) => NewError StatusInternalServerError (Error err)
                        | (decision, None) => JSON_decision decision
                        end
                  end
            end
      end
  end.

(** [body] is the field [URL] of the decoded request, [None] if
    [c.BodyParser] failed. *)
Definition TrackPaymentLink (h : FraudAPIHandler D) (net : Network) (body : option string)
    : reply * Network :=
  match body with
  | None => (NewError StatusBadRequest "Invalid request body", net)
  | Some url =>
      if String.eqb url "" then (NewError StatusBadRequest "url is required", net)
      else
        let '((isSuspicious, reason, err), net') :=
          services.TrackPaymentLink (svc h) net (<["url" := VString url]> ∅) in
        match err with
        | Some e => (NewError StatusInternalServerError (Error e), net')
        | None =>
            (JSON_map (<["is_suspicious" := VBool isSuspicious]>
                         (<["reason" := VString reason]> ∅)), net')
        end
  end.

Definition ValidatePaymentChannel (h : FraudAPIHandler D)
    (body : option (gmap string value)) : reply :=
  match body with
  | None => NewError StatusBadRequest "Invalid request body"
  | Some channelData =>
      match asString (channelData !! "channel_type") with
      | None => NewError StatusBadRequest "channel_type is required and must be a string"
      | Some channelType =>
          if String.eqb channelType "" then
            NewError StatusBadRequest "channel_type is required and must be a string"
          else
            match asString (channelData !! "transaction_id") with
            | None =>
                NewError StatusBadRequest "transaction_id is required and must be a string"
            | Some transactionID =>
                if String.eqb transactionID "" then
                  NewError StatusBadRequest "transaction_id is required and must be a string"
                else
                  match service_ops.ValidatePaymentChannel (svc h) channelData with
                  | (_, _, Some err) => NewError StatusInternalServerError (Error err)
                  | (isValid, reason, None) =>
                      JSON_map (<["is_valid" := VBool isValid]>
                                  (<["reason" := VString reason]> ∅))
                  end
            end
      end
  end.

(** [reference] is the route parameter [:reference]. *)
Definition GetTransactionDetails (h : FraudAPIHandler D) (net : Network)
    (reference : string) : reply * Network :=
  if String.eqb reference "" then
    (NewError StatusBadRequest "transaction reference is required", net)
  else
    let '(r, net') := GetTransactionDetailsByReference (svc h) net reference in
    match r with
    | Err err =>
        if String.eqb (Error err)
             ("transaction with reference " ++ reference ++ " not found") then
          (NewError StatusNotFound (Error err), net')
        else (NewError StatusInternalServerError (Error err), net')
    | Ok transaction => (JSON_transaction transaction, net')
    end.

End WithDetector.

End handlers.

(* ===================================================================== *)
(** ** internal/config                                                    *)
(* ===================================================================== *)

Module config.
Import services.

Record Config := {
  ServiceName : string;
  Port : string;
  APIKey : string;
  PostgresDSN : string;
  RedisAddr : string;
  RedisPassword : string;
  RedisDB : Z
}.

Section WithGoLib.
Context `{GoLib}.

Definition getEnv (key def : string) : string :=
  let v := os_Getenv key in
  if negb (String.eqb v "") then v else def.

Definition Load (serviceName defaultPort : string) : Config :=
  let redisDB :=
    match strconv_Atoi (getEnv "REDIS_DB" "0") with
    | Ok n => n
    | Err _ => 0%Z
    end in
  {| ServiceName := serviceName;
     Port := getEnv "PORT" defaultPort;
     APIKey := getEnv "API_KEY" "";
     PostgresDSN := getEnv "POSTGRES_DSN" "";
     RedisAddr := getEnv "REDIS_ADDR" "localhost:6379";
     RedisPassword := getEnv "REDIS_PASSWORD" "";
     RedisDB := redisDB |}.

End WithGoLib.

End config.

(** *** Predicates for the service and the handlers *)

Module api_spec.
Import services.

(** The URL [GetTransactionDetailsByReference] asks for. *)
Definition requestURL {D : Type} (s : FraudService D) (reference : string) : string :=
  TrimRight_slash (transactionServiceURL s) ++ "/transactions/" ++ reference.

(** The network after one request for [url]. *)
Definition afterRequest (net : Network) (url : string) : Network :=
  snd (http_Do net url).

(** What the handler of check-transaction requires of a request body:
    a non-empty string [customer_id], a number [amount] that is not [<= 0],
    and a non-empty string [currency]. *)
Definition validTransaction (transactionData : gmap string value) : Prop :=
  exists customerID amount currency,
    asString (transactionData !! "customer_id") = Some customerID /\ customerID <> ""
    /\ asFloat (transactionData !! "amount") = Some amount
    /\ PrimFloat.leb amount 0%float = false
    /\ asString (transactionData !! "currency") = Some currency /\ currency <> "".

(** What the handler of validate-payment-channel requires. *)
Definition validChannel (channelData : gmap string value) : Prop :=
  exists channelType transactionID,
    asString (channelData !! "channel_type") = Some channelType /\ channelType <> ""
    /\ asString (channelData !! "transaction_id") = Some transactionID
    /\ transactionID <> "".

(** The body [fiber.Map{first: b, "reason": reason}]. *)
Definition verdictMap (first : string) (b : bool) (reason : string) : gmap string value :=
  <[first := VBool b]> (<["reason" := VString reason]> ∅).

End api_spec.

(** *** More examples *)

Module fixtures_more.
Import repository fraud services fixtures.

(** A disabled copy of the rule that denies every event. *)
Definition disabledBlockAllRule : FraudRule.t :=
  {| FraudRule.ID := "BLOCK_ALL";
     FraudRule.Description := "Denies every transaction.";
     FraudRule.Threshold := 0%float;
     FraudRule.ScoreImpact := 10%float;
     FraudRule.Decision := "deny";
     FraudRule.Enabled := false;
     FraudRule.Predicate := fun _ => (true, None) |}.

(** An event from a clean origin with a small amount. *)
Definition event_c2 : gmap string value :=
  <["customer_id" := VString "c2"]>
    (<["amount" := VFloat 10%float]>
       (<["currency" := VString "NGN"]>
          (<["origin" := VString "10.0.0.7"]> ∅))).

Definition txn_at (t : Time) : TransactionRecord :=
  {| repository.ID := "t"; repository.Amount := 10%float;
     repository.Currency := "NGN"; repository.Timestamp := t |}.

(** A repository read at time 100 that holds records of customer "c1"
    stamped 90 and 95. *)
Definition twoRecordsRepo : InMemoryFraudDataRepository :=
  AddTransaction (AddTransaction (NewInMemoryFraudDataRepository 100%Z) "c1" (txn_at 90%Z))
    "c1" (txn_at 95%Z).

(** A repository read at time 100 that holds six records of customer
    "c1", all of the last 24 hours. *)
Definition sixRecentRepo : InMemoryFraudDataRepository :=
  AddTransaction
    (AddTransaction
       (AddTransaction
          (AddTransaction
             (AddTransaction
                (AddTransaction (NewInMemoryFraudDataRepository 100%Z) "c1" (txn_at 91%Z))
                "c1" (txn_at 92%Z))
             "c1" (txn_at 93%Z))
          "c1" (txn_at 94%Z))
       "c1" (txn_at 95%Z))
    "c1" (txn_at 96%Z).

(** A transaction service that answers every request with status 500 and
    a body that says the upstream was not found. *)
Definition brokenNet : Network :=
  {| transport := fun _ => Ok {| StatusCode := 500; Body := "upstream not found" |};
     requests := [] |}.

(** An environment in which [PORT] is set to the empty string and
    [REDIS_DB] is not a number. *)
Definition oddEnvLib : GoLib :=
  {| URL := string;
     url_Parse := parseURL;
     URL_Query := parseQuery;
     strconv_Atoi := parseInt64;
     strconv_ParseInt := parseInt64;
     os_Getenv := fun key => if String.eqb key "REDIS_DB" then "first" else "";
     http_NewRequest := fun _ => None;
     json_Decode := decodeBody |}.

End fixtures_more.

(* ===================================================================== *)
(** ** Properties of the detector                                         *)
(* ===================================================================== *)

Module detector_facts.
Import repository fraud spec.

(** A failed type assertion: the key is absent, or its value has another
    dynamic type. *)
Lemma asString_None_iff (o : option value) :
  asString o = None <-> o = None \/ exists v, o = Some v /\ forall s, v <> VString s.
Proof.
  split.
  - destruct o as [v|]; [|auto]. intros Hn. right. exists v. split; [reflexivity|].
    intros s ->. discriminate.
  - intros [-> | (v & -> & Hv)]; [reflexivity|].
    destruct v; try reflexivity. exfalso. eapply Hv. reflexivity.
Qed.

Lemma asFloat_None_iff (o : option value) :
  asFloat o = None <-> o = None \/ exists v, o = Some v /\ forall f, v <> VFloat f.
Proof.
  split.
  - destruct o as [v|]; [|auto]. intros Hn. right. exists v. split; [reflexivity|].
    intros f ->. discriminate.
  - intros [-> | (v & -> & Hv)]; [reflexivity|].
    destruct v; try reflexivity. exfalso. eapply Hv. reflexivity.
Qed.

(** No predicate of the default catalog returns an error. *)
Lemma DefaultRules_predicates_never_fail (r : FraudRule.t)
    (transactionData : gmap string value) :
  In r DefaultRules -> snd (FraudRule.Predicate r transactionData) = None.
Proof.
  intros [<- | [<- | [<- | []]]]; simpl.
  - unfold highAmountPredicate. destruct (asFloat _); reflexivity.
  - unfold suspiciousIPPredicate. destruct (asString _); reflexivity.
  - reflexivity.
Qed.

Section Loop.
Context {R : Type} `{FraudDataRepository R}.
Variable d : R.
Variable transactionData : gmap string value.

Lemma ruleLoop_app (l1 l2 : list FraudRule.t) (st : loopState) :
  ruleLoop d transactionData (l1 ++ l2) st =
  match ruleLoop d transactionData l1 st with
  | Next st' => ruleLoop d transactionData l2 st'
  | Break st' => Break st'
  | Return e => Return e
  end.
Proof.
  revert st. induction l1 as [|r l1 IH]; intros st; simpl; [reflexivity|].
  destruct (ruleBody d transactionData r st); auto.
Qed.

Lemma ruleLoop_cons (r : FraudRule.t) (l : list FraudRule.t) (st : loopState) :
  ruleLoop d transactionData (r :: l) st =
  match ruleBody d transactionData r st with
  | Next st' => ruleLoop d transactionData l st'
  | Break st' => Break st'
  | Return e => Return e
  end.
Proof. reflexivity. Qed.

(** A triggered enabled rule with hint ["deny"] makes the body break. *)
Lemma ruleBody_deny (r : FraudRule.t) (st : loopState) :
  FraudRule.Enabled r = true ->
  FraudRule.Decision r = "deny" ->
  evalTrigger d transactionData r = (true, None) ->
  ruleBody d transactionData r st =
  Break {| totalScore := PrimFloat.add (totalScore st) (FraudRule.ScoreImpact r);
           decision := {| FraudDecision.OverallScore :=
                            FraudDecision.OverallScore (decision st);
                          FraudDecision.Decision := "deny";
                          FraudDecision.Reasons :=
                            (FraudDecision.Reasons (decision st)
                               ++ [FraudRule.Description r])%list |} |}.
Proof.
  intros He Hd Ht. unfold ruleBody. rewrite He, Ht, Hd. reflexivity.
Qed.

Lemma ruleBody_undecided (r : FraudRule.t) (st st' : loopState) :
  undecided st -> ruleBody d transactionData r st = Next st' -> undecided st'.
Proof.
  unfold ruleBody, undecided. intros Hst.
  destruct (FraudRule.Enabled r); simpl; [|intros [= <-]; exact Hst].
  destruct (evalTrigger d transactionData r) as [[|] [e|]]; try discriminate;
    [|intros [= <-]; exact Hst].
  destruct (String.eqb (FraudRule.Decision r) "deny"); [discriminate|].
  destruct (String.eqb (FraudRule.Decision r) "flag"); simpl.
  - destruct (String.eqb (FraudDecision.Decision (decision st)) "deny");
      simpl; intros [= <-]; simpl; auto.
  - intros [= <-]; simpl; auto.
Qed.

Lemma ruleLoop_undecided (l : list FraudRule.t) (st st' : loopState) :
  undecided st -> ruleLoop d transactionData l st = Next st' -> undecided st'.
Proof.
  revert st. induction l as [|r l IH]; intros st Hst; simpl.
  - intros [= <-]. exact Hst.
  - destruct (ruleBody d transactionData r st) as [st1| |] eqn:Hb; try discriminate.
    apply IH. eapply ruleBody_undecided; eauto.
Qed.

(** Every [Return] of the loop comes from an enabled rule of the list. *)
Lemma ruleBody_Return (r : FraudRule.t) (st : loopState) (e : error) :
  ruleBody d transactionData r st = Return e ->
  FraudRule.Enabled r = true
  /\ (fetchFailure d transactionData r e \/ predicateFailure transactionData r e).
Proof.
  unfold ruleBody. destruct (FraudRule.Enabled r); simpl; [|discriminate].
  intros Hb. split; [reflexivity|].
  assert (Ht : exists b, evalTrigger d transactionData r = (b, Some e)).
  { destruct (evalTrigger d transactionData r) as [b [e'|]].
    - injection Hb as ->. eauto.
    - destruct b; [|discriminate].
      destruct (String.eqb (FraudRule.Decision r) "deny"); [discriminate|].
      destruct (_ && _); discriminate. }
  clear Hb. destruct Ht as [b Ht]. unfold evalTrigger in Ht.
  destruct (String.eqb (FraudRule.ID r) "HIGH_VELOCITY_CUSTOMER") eqn:Hv.
  { apply String.eqb_eq in Hv. left. left. split; [exact Hv|].
    destruct (asString (transactionData !! "customer_id")) as [cid|]; [|discriminate].
    destruct (GetTransactionHistory d cid (24 * Hour)%Z) as [h [re|]] eqn:Hh;
      [|discriminate].
    injection Ht as _ <-. exists cid, h, re. auto. }
  destruct (String.eqb (FraudRule.ID r) "SUSPICIOUS_IP_ORIGIN") eqn:Hi.
  { apply String.eqb_eq in Hi. left. right. split; [exact Hi|].
    destruct (asString (transactionData !! "origin")) as [o|]; [|discriminate].
    destruct (GetIPData d o) as [m [re|]] eqn:Hh; [|discriminate].
    injection Ht as _ <-. exists o, m, re. auto. }
  right. apply String.eqb_neq in Hv, Hi. split; [exact Hv|]. split; [exact Hi|].
  destruct (FraudRule.Predicate r transactionData) as [b' [err|]] eqn:Hp; [|congruence].
  injection Ht as _ <-. exists b', err. auto.
Qed.

(** Conversely, a failed fetch or a failed predicate at an enabled rule
    makes the body return the wrapped error. *)
Lemma ruleBody_failure (r : FraudRule.t) (st : loopState) (e : error) :
  FraudRule.Enabled r = true ->
  fetchFailure d transactionData r e \/ predicateFailure transactionData r e ->
  ruleBody d transactionData r st = Return e.
Proof.
  intros He Hf. unfold ruleBody, evalTrigger. rewrite He. cbn [negb].
  destruct Hf as [[(Hid & c & h & re & Hc & Hg & ->) | (Hid & o & m & re & Ho & Hg & ->)]
                 | (Hv & Hi & b & err & Hp & ->)].
  - rewrite Hid. change (String.eqb "HIGH_VELOCITY_CUSTOMER" "HIGH_VELOCITY_CUSTOMER")
      with true. cbv iota. rewrite Hc, Hg. reflexivity.
  - rewrite Hid. change (String.eqb "SUSPICIOUS_IP_ORIGIN" "HIGH_VELOCITY_CUSTOMER")
      with false. change (String.eqb "SUSPICIOUS_IP_ORIGIN" "SUSPICIOUS_IP_ORIGIN")
      with true. cbv iota. rewrite Ho, Hg. reflexivity.
  - apply String.eqb_neq in Hv, Hi. rewrite Hv, Hi, Hp. reflexivity.
Qed.

Lemma ruleLoop_Return (l : list FraudRule.t) (st : loopState) (e : error) :
  ruleLoop d transactionData l st = Return e ->
  exists r, In r l /\ FraudRule.Enabled r = true
            /\ (fetchFailure d transactionData r e \/ predicateFailure transactionData r e).
Proof.
  revert st. induction l as [|r l IH]; intros st; simpl; [discriminate|].
  destruct (ruleBody d transactionData r st) as [st1|st1|e1] eqn:Hb.
  - intros Hl. destruct (IH _ Hl) as (r' & Hin & Hr'). exists r'. auto.
  - discriminate.
  - intros [= ->]. exists r. split; [auto|]. eapply ruleBody_Return; eauto.
Qed.

(** A rule whose field is unusable leaves the loop state as it found it. *)
Lemma ruleBody_unusable (r : FraudRule.t) (st : loopState) :
  fieldUnusable transactionData r -> ruleBody d transactionData r st = Next st.
Proof.
  unfold ruleBody, evalTrigger.
  intros [[Hid Hf] | [[Hid Hf] | [-> Hf]]].
  - rewrite Hid, Hf. simpl. destruct (FraudRule.Enabled r); reflexivity.
  - rewrite Hid, Hf. simpl. destruct (FraudRule.Enabled r); reflexivity.
  - simpl. unfold highAmountPredicate. rewrite Hf. reflexivity.
Qed.

End Loop.

End detector_facts.

Module detector_claims.
Import repository fraud spec fixtures detector_facts.

(** C1. When an enabled rule [r] with hint ["deny"] triggers during
    [CheckTransaction] (the loop reaches it in state [st], after the rules
    [pre] before it), the decision is ["deny"] with a nil error, the score is
    the score on reaching [r] plus [r]'s impact, the reasons are those
    gathered before [r] followed by [r]'s description, and the rules [post]
    after [r] are not evaluated: whatever they are, the result is the one of
    the catalog that ends at [r]. *)
Theorem CheckTransaction_deny_stops_evaluation
    {R : Type} `{FraudDataRepository R} (d : R) (transactionData : gmap string value)
    (pre post : list FraudRule.t) (r : FraudRule.t) (st : loopState) :
  ruleLoop d transactionData pre initState = Next st ->
  FraudRule.Enabled r = true ->
  FraudRule.Decision r = "deny" ->
  evalTrigger d transactionData r = (true, None) ->
  CheckTransaction {| repo := d; rules := pre ++ r :: post |} transactionData =
    ({| FraudDecision.OverallScore := PrimFloat.add (totalScore st) (FraudRule.ScoreImpact r);
        FraudDecision.Decision := "deny";
        FraudDecision.Reasons :=
          (FraudDecision.Reasons (decision st) ++ [FraudRule.Description r])%list |}, None)
  /\ CheckTransaction {| repo := d; rules := pre ++ r :: post |} transactionData =
     CheckTransaction {| repo := d; rules := pre ++ [r] |} transactionData.
Proof.
  intros Hpre He Hd Ht.
  assert (Hgen : forall tail,
    CheckTransaction {| repo := d; rules := pre ++ r :: tail |} transactionData =
    ({| FraudDecision.OverallScore := PrimFloat.add (totalScore st) (FraudRule.ScoreImpact r);
        FraudDecision.Decision := "deny";
        FraudDecision.Reasons :=
          (FraudDecision.Reasons (decision st) ++ [FraudRule.Description r])%list |}, None)).
  { intros tail. unfold CheckTransaction. simpl.
    rewrite ruleLoop_app, Hpre, ruleLoop_cons, (ruleBody_deny d transactionData r st He Hd Ht).
    reflexivity. }
  split; [apply Hgen|]. rewrite (Hgen post), (Hgen []). reflexivity.
Qed.

Lemma CheckTransaction_deny_stops_evaluation_witness :
  CheckTransaction {| repo := emptyRepo; rules := [highAmountRule; blockAllRule; deviceRule] |}
    event_c1 =
  ({| FraudDecision.OverallScore := 60%float;
      FraudDecision.Decision := "deny";
      FraudDecision.Reasons :=
        ["Flags transactions with amounts exceeding a high threshold.";
         "Denies every transaction."] |}, None).
Proof.
  apply (CheckTransaction_deny_stops_evaluation emptyRepo event_c1
           [highAmountRule] [deviceRule] blockAllRule
           {| totalScore := 50%float;
              decision := {| FraudDecision.OverallScore := 0%float;
                             FraudDecision.Decision := "flag";
                             FraudDecision.Reasons :=
                               ["Flags transactions with amounts exceeding a high threshold."] |} |});
    reflexivity.
Defined.

(** C2. When the rule loop of [CheckTransaction] runs to its end with no
    rule denying (no [break], no error), leaving score [totalScore st] and
    the decision of the rule hints in [st], that decision is ["approve"] or
    ["flag"] and the call returns, with a nil error and that score: ["deny"]
    if the score is at least 100, otherwise ["flag"] if it is at least 50,
    otherwise the decision of the rule hints. *)
Theorem CheckTransaction_score_overrides
    {R : Type} `{FraudDataRepository R} (d : RuleBasedFraudDetector R)
    (transactionData : gmap string value) (st : loopState) :
  ruleLoop (repo d) transactionData (rules d) initState = Next st ->
  undecided st
  /\ snd (CheckTransaction d transactionData) = None
  /\ FraudDecision.OverallScore (fst (CheckTransaction d transactionData)) = totalScore st
  /\ FraudDecision.Reasons (fst (CheckTransaction d transactionData))
     = FraudDecision.Reasons (decision st)
  /\ FraudDecision.Decision (fst (CheckTransaction d transactionData)) =
       if PrimFloat.leb 100%float (totalScore st) then "deny"
       else if PrimFloat.leb 50%float (totalScore st) then "flag"
       else FraudDecision.Decision (decision st).
Proof.
  intros Hl.
  assert (Hu : undecided st).
  { eapply ruleLoop_undecided; [|exact Hl]. left. reflexivity. }
  split; [exact Hu|]. unfold CheckTransaction. rewrite Hl. simpl.
  split; [reflexivity|]. unfold finalDecision. simpl.
  assert (Hnd : String.eqb (FraudDecision.Decision (decision st)) "deny" = false).
  { destruct Hu as [-> | ->]; reflexivity. }
  rewrite Hnd. simpl.
  destruct (PrimFloat.leb 100 (totalScore st)); [auto|].
  destruct (PrimFloat.leb 50 (totalScore st)); auto.
Qed.

Lemma CheckTransaction_score_overrides_witness :
  FraudDecision.Decision
    (fst (CheckTransaction {| repo := emptyRepo; rules := DefaultRules |} event_c1)) = "deny".
Proof.
  apply (CheckTransaction_score_overrides
           {| repo := emptyRepo; rules := DefaultRules |} event_c1
           {| totalScore := 120%float;
              decision := {| FraudDecision.OverallScore := 0%float;
                             FraudDecision.Decision := "flag";
                             FraudDecision.Reasons :=
                               ["Flags transactions with amounts exceeding a high threshold.";
                                "Flags transactions originating from suspicious IP addresses."] |} |}).
  reflexivity.
Defined.

(** C5. A rule whose field ([customer_id], [origin] or [amount]) is missing
    from the event data or has another dynamic type does not trigger and
    raises no error: its loop body leaves the state unchanged and goes on to
    the next rule, so [CheckTransaction] returns what it returns on the catalog
    without that rule. [CheckTransaction] is a total function: there is no
    input on which it gives no result. *)
Theorem CheckTransaction_unusable_field_not_triggered
    {R : Type} `{FraudDataRepository R} (d : R) (transactionData : gmap string value)
    (pre post : list FraudRule.t) (r : FraudRule.t) :
  fieldUnusable transactionData r ->
  (forall st, ruleBody d transactionData r st = Next st)
  /\ CheckTransaction {| repo := d; rules := pre ++ r :: post |} transactionData =
     CheckTransaction {| repo := d; rules := pre ++ post |} transactionData.
Proof.
  intros Hf.
  assert (Hb : forall st, ruleBody d transactionData r st = Next st).
  { intros st. apply ruleBody_unusable. exact Hf. }
  split; [exact Hb|]. unfold CheckTransaction. simpl.
  rewrite !ruleLoop_app.
  destruct (ruleLoop d transactionData pre initState) as [st| |]; try reflexivity.
  rewrite ruleLoop_cons, Hb. reflexivity.
Qed.

Lemma CheckTransaction_unusable_field_not_triggered_witness :
  CheckTransaction {| repo := unreachable; rules := [highAmountRule; suspiciousIPRule] |}
    event_mistyped =
  CheckTransaction {| repo := unreachable; rules := [highAmountRule] |} event_mistyped.
Proof.
  apply (CheckTransaction_unusable_field_not_triggered unreachable event_mistyped
           [highAmountRule] [] suspiciousIPRule).
  right. left. split; reflexivity.
Defined.

(** C6 as stated fails: with a repository none of whose fetches can fail,
    a catalog holding a rule whose predicate returns an error makes
    [CheckTransaction] fail on an event the HTTP handler accepts. *)
Lemma CheckTransaction_fails_on_predicate_error :
  CheckTransaction {| repo := emptyRepo; rules := [deviceRule] |} event_c1 =
    (zeroDecision,
     Some (wrapError "error evaluating rule EMULATED_DEVICE: device_id is missing"
                     (errorString "device_id is missing")))
  /\ (forall customerID lookback,
        snd (GetTransactionHistory emptyRepo customerID lookback) = None)
  /\ (forall ipAddress, snd (GetIPData emptyRepo ipAddress) = None).
Proof.
  split; [reflexivity|]. split; intros; reflexivity.
Qed.

(** C6, amended. [CheckTransaction] fails only if a fetch of the transaction
    history or of the IP data fails, or the predicate of a rule returns an
    error; the failing rule is an enabled rule of the catalog. In that case,
    that is whenever the loop reaches an enabled rule [r] (in state [st],
    after the rules [pre]) at which such a fetch or the predicate fails with
    [cause], the call returns the error that wraps the cause in a message
    naming the rule id, and the decision returned with it is the zero value
    (score 0, empty decision string, no reasons): no partial decision, and
    the rules [post] after [r] are not evaluated. The in-memory repository
    never fails, and for a customer with no history it returns the empty
    sequence. *)
Theorem CheckTransaction_failure_causes
    {R : Type} `{FraudDataRepository R} (d : RuleBasedFraudDetector R)
    (transactionData : gmap string value) (dec : FraudDecision.t) (e : error)
    (pre post : list FraudRule.t) (r : FraudRule.t) (st : loopState) (cause : error)
    (mem : InMemoryFraudDataRepository) (customerID : string) (lookback : Duration) :
  (CheckTransaction d transactionData = (dec, Some e) ->
   dec = zeroDecision
   /\ exists r, In r (rules d) /\ FraudRule.Enabled r = true
        /\ (fetchFailure (repo d) transactionData r e
            \/ predicateFailure transactionData r e))
  /\ (ruleLoop (repo d) transactionData pre initState = Next st ->
      FraudRule.Enabled r = true ->
      fetchFailure (repo d) transactionData r cause
      \/ predicateFailure transactionData r cause ->
      CheckTransaction {| repo := repo d; rules := pre ++ r :: post |} transactionData
      = (zeroDecision, Some cause))
  /\ snd (GetTransactionHistory mem customerID lookback) = None
  /\ (transactions mem !! customerID = None ->
      GetTransactionHistory mem customerID lookback = ([], None)).
Proof.
  split; [|split; [|split]].
  - unfold CheckTransaction.
    destruct (ruleLoop (repo d) transactionData (rules d) initState) as [st'|st'|e'] eqn:Hl;
      try discriminate.
    intros [= <- ->]. split; [reflexivity|]. eapply ruleLoop_Return; eauto.
  - intros Hpre He Hf. unfold CheckTransaction. cbn [repo rules].
    rewrite ruleLoop_app, Hpre, ruleLoop_cons,
      (ruleBody_failure (repo d) transactionData r st cause He Hf).
    reflexivity.
  - simpl. unfold InMemory_GetTransactionHistory.
    destruct (transactions mem !! customerID); reflexivity.
  - intros Hn. simpl. unfold InMemory_GetTransactionHistory. rewrite Hn. reflexivity.
Qed.

Lemma CheckTransaction_failure_causes_witness :
  CheckTransaction {| repo := unreachable; rules := DefaultRules |} event_c1
    = (zeroDecision,
       Some (wrapError "failed to get IP data for rule SUSPICIOUS_IP_ORIGIN: connection refused"
                       (errorString "connection refused")))
  /\ (exists r, In r DefaultRules /\ FraudRule.Enabled r = true
        /\ (fetchFailure unreachable event_c1 r
              (wrapError
                 "failed to get IP data for rule SUSPICIOUS_IP_ORIGIN: connection refused"
                 (errorString "connection refused"))
            \/ predicateFailure event_c1 r
              (wrapError
                 "failed to get IP data for rule SUSPICIOUS_IP_ORIGIN: connection refused"
                 (errorString "connection refused"))))
  /\ GetTransactionHistory emptyRepo "c1" (24 * Hour)%Z = ([], None).
Proof.
  destruct (CheckTransaction_failure_causes
              {| repo := unreachable; rules := DefaultRules |} event_c1 zeroDecision
              (wrapError "failed to get IP data for rule SUSPICIOUS_IP_ORIGIN: connection refused"
                         (errorString "connection refused"))
              [highAmountRule] [highVelocityRule] suspiciousIPRule
              {| totalScore := 50%float;
                 decision := {| FraudDecision.OverallScore := 0%float;
                                FraudDecision.Decision := "flag";
                                FraudDecision.Reasons :=
                                  ["Flags transactions with amounts exceeding a high threshold."] |} |}
              (wrapError "failed to get IP data for rule SUSPICIOUS_IP_ORIGIN: connection refused"
                         (errorString "connection refused"))
              emptyRepo "c1" (24 * Hour)%Z) as (Honly & Hif & _ & Hempty).
  split; [|split].
  - apply Hif; [reflexivity|reflexivity|].
    left. right. split; [reflexivity|].
    exists "suspicious_ip", None, (errorString "connection refused").
    repeat split.
  - destruct (Honly eq_refl) as [_ Hr]. exact Hr.
  - apply Hempty. reflexivity.
Defined.

(** C8. With the default catalog and an in-memory repository that holds no
    transactions of customer ["c1"] and no data on ["suspicious_ip"], the
    event [{customer_id:"c1", amount:1500.0, currency:"NGN",
    origin:"suspicious_ip"}] gets score 120 (50 + 70), decision ["deny"] and
    the descriptions of HIGH_AMOUNT_TRANSACTION and SUSPICIOUS_IP_ORIGIN, in
    that order, as reasons, with a nil error. *)
Theorem CheckTransaction_scenario_c1 (mem : InMemoryFraudDataRepository) :
  transactions mem !! "c1" = None ->
  ipData mem !! "suspicious_ip" = None ->
  CheckTransaction (NewRuleBasedFraudDetector mem DefaultRules) event_c1 =
    ({| FraudDecision.OverallScore := 120%float;
        FraudDecision.Decision := "deny";
        FraudDecision.Reasons :=
          [FraudRule.Description highAmountRule; FraudRule.Description suspiciousIPRule] |},
     None)
  /\ PrimFloat.add (FraudRule.ScoreImpact highAmountRule) (FraudRule.ScoreImpact suspiciousIPRule)
     = 120%float
  /\ PrimFloat.leb 100%float 120%float = true.
Proof.
  intros Ht Hip. split; [|split; reflexivity].
  unfold CheckTransaction, NewRuleBasedFraudDetector, DefaultRules. simpl rules. simpl repo.
  assert (Hc : asString (event_c1 !! "customer_id") = Some "c1") by reflexivity.
  assert (Ho : asString (event_c1 !! "origin") = Some "suspicious_ip") by reflexivity.
  assert (Ha : asFloat (event_c1 !! "amount") = Some 1500%float) by reflexivity.
  assert (H1 : ruleBody mem event_c1 highAmountRule initState =
               Next {| totalScore := 50%float;
                       decision := {| FraudDecision.OverallScore := 0%float;
                                      FraudDecision.Decision := "flag";
                                      FraudDecision.Reasons :=
                                        [FraudRule.Description highAmountRule] |} |}).
  { unfold ruleBody, evalTrigger. simpl. unfold highAmountPredicate. rewrite Ha.
    reflexivity. }
  rewrite ruleLoop_cons, H1.
  match goal with |- context [ruleLoop _ _ _ ?st] => set (st1 := st) end.
  assert (H2 : ruleBody mem event_c1 suspiciousIPRule st1 =
               Next {| totalScore := 120%float;
                       decision := {| FraudDecision.OverallScore := 0%float;
                                      FraudDecision.Decision := "flag";
                                      FraudDecision.Reasons :=
                                        [FraudRule.Description highAmountRule;
                                         FraudRule.Description suspiciousIPRule] |} |}).
  { unfold ruleBody, evalTrigger. simpl. rewrite Ho. simpl.
    unfold InMemory_GetIPData. rewrite Hip. reflexivity. }
  rewrite ruleLoop_cons, H2.
  match goal with |- context [ruleLoop _ _ _ ?st] => set (st2 := st) end.
  assert (H3 : ruleBody mem event_c1 highVelocityRule st2 = Next st2).
  { unfold ruleBody, evalTrigger. simpl. rewrite Hc. simpl.
    unfold InMemory_GetTransactionHistory. rewrite Ht. reflexivity. }
  rewrite ruleLoop_cons, H3. reflexivity.
Qed.

Lemma CheckTransaction_scenario_c1_witness :
  CheckTransaction (NewRuleBasedFraudDetector emptyRepo DefaultRules) event_c1 =
    ({| FraudDecision.OverallScore := 120%float;
        FraudDecision.Decision := "deny";
        FraudDecision.Reasons :=
          ["Flags transactions with amounts exceeding a high threshold.";
           "Flags transactions originating from suspicious IP addresses."] |}, None).
Proof.
  apply (CheckTransaction_scenario_c1 emptyRepo); reflexivity.
Defined.

(** C10. The constructor replaces an empty rule list by [DefaultRules] and
    keeps a non-empty one as it is, so the catalog of a constructed detector
    is never empty; a detector with an empty catalog, were there one, would
    approve every event with score 0 and no reasons. *)
Theorem NewRuleBasedFraudDetector_catalog
    {R : Type} `{FraudDataRepository R} (d : R) (r : FraudRule.t) (rs given : list FraudRule.t)
    (transactionData : gmap string value) :
  rules (NewRuleBasedFraudDetector d []) = DefaultRules
  /\ rules (NewRuleBasedFraudDetector d (r :: rs)) = r :: rs
  /\ rules (NewRuleBasedFraudDetector d given) <> []
  /\ repo (NewRuleBasedFraudDetector d given) = d
  /\ CheckTransaction {| repo := d; rules := [] |} transactionData =
     ({| FraudDecision.OverallScore := 0%float;
         FraudDecision.Decision := "approve";
         FraudDecision.Reasons := [] |}, None).
Proof.
  repeat split.
  destruct given; simpl; discriminate.
Qed.

End detector_claims.

(* ===================================================================== *)
(** ** Properties of the service                                          *)
(* ===================================================================== *)

Module services_facts.
Import services spec.

Lemma prefix_append (v rest : string) : String.prefix v (v ++ rest) = true.
Proof.
  induction v as [|c v IH]; simpl; [destruct rest; reflexivity|].
  destruct (ascii_dec c c); [exact IH|congruence].
Qed.

Lemma Contains_prefix (s sub : string) : String.prefix sub s = true -> Contains s sub = true.
Proof. intros Hp. destruct s; cbn [Contains]; rewrite Hp; reflexivity. Qed.

Lemma Contains_append_r (before s sub : string) :
  Contains s sub = true -> Contains (before ++ s) sub = true.
Proof.
  intros Hs. induction before as [|c before IH]; [exact Hs|].
  change (String c before ++ s) with (String c (before ++ s)).
  cbn [Contains]. rewrite IH. apply orb_true_r.
Qed.

Lemma Contains_middle (before v rest : string) : Contains (before ++ v ++ rest) v = true.
Proof. apply Contains_append_r, Contains_prefix, prefix_append. Qed.

Lemma Contains_end (before v : string) : Contains (before ++ v) v = true.
Proof.
  apply Contains_append_r, Contains_prefix.
  induction v as [|c v IH]; simpl; [reflexivity|].
  destruct (ascii_dec c c); [exact IH|congruence].
Qed.

Lemma append_assoc (a b c : string) : (a ++ b) ++ c = a ++ (b ++ c).
Proof.
  induction a as [|x a IH]; [reflexivity|].
  change (String x ((a ++ b) ++ c) = String x (a ++ (b ++ c))). f_equal. exact IH.
Qed.

Lemma mismatchReason_mentions (what a b : string) :
  mentions (mismatchReason what a b) a /\ mentions (mismatchReason what a b) b.
Proof.
  unfold mentions, mismatchReason. split.
  - rewrite <- append_assoc. apply Contains_middle.
  - rewrite <- !append_assoc. apply Contains_end.
Qed.

Lemma reportsMismatch_intro (what a b : string) :
  reportsMismatch (true, mismatchReason what a b, None) what a b.
Proof.
  unfold reportsMismatch. simpl. split; [reflexivity|]. apply mismatchReason_mentions.
Qed.

(** A parameter that does not occur in the query reads as empty. *)
Lemma Values_Get_absent (q : Values) (key : string) : q !! key = None -> Values_Get q key = "".
Proof. unfold Values_Get. intros ->. reflexivity. Qed.

Section Validator.
Context `{GoLib} {D : Type}.
Variable s : FraudService D.

Lemma parameterMissing_test (q : Values) :
  parameterMissing q ->
  String.eqb (Values_Get q "ref") "" || String.eqb (Values_Get q "merchant_id") ""
  || String.eqb (Values_Get q "amount") "" || String.eqb (Values_Get q "currency") "" = true.
Proof.
  intros [-> | [-> | [-> | ->]]]; simpl; rewrite ?orb_true_r; reflexivity.
Qed.

Lemma parametersPresent_test (q : Values) :
  parametersPresent q ->
  String.eqb (Values_Get q "ref") "" || String.eqb (Values_Get q "merchant_id") ""
  || String.eqb (Values_Get q "amount") "" || String.eqb (Values_Get q "currency") "" = false.
Proof.
  intros (H1 & H2 & H3 & H4).
  apply String.eqb_neq in H1, H2, H3, H4. rewrite H1, H2, H3, H4. reflexivity.
Qed.

(** The validator once the link has parsed and the transaction is
    fetched: only the three comparisons are left. *)
Lemma ValidatePaymentLink_fetched (net net' : Network) (linkUrl : string) (u : URL)
    (merchantID amount : Z) (originalTx : TransactionResponse) :
  url_Parse linkUrl = Ok u ->
  parametersPresent (URL_Query u) ->
  strconv_Atoi (Values_Get (URL_Query u) "merchant_id") = Ok merchantID ->
  strconv_ParseInt (Values_Get (URL_Query u) "amount") = Ok amount ->
  GetTransactionDetailsByReference s net (Values_Get (URL_Query u) "ref")
    = (Ok originalTx, net') ->
  ValidatePaymentLink s net linkUrl =
    (if negb (MerchantID originalTx =? merchantID)%Z then
       (true, mismatchReason "Merchant ID" (fmt_d merchantID) (fmt_d (MerchantID originalTx)),
        None)
     else if negb (Amount originalTx =? amount)%Z then
       (true, mismatchReason "Amount" (fmt_d amount) (fmt_d (Amount originalTx)), None)
     else if negb (String.eqb (Currency originalTx) (Values_Get (URL_Query u) "currency")) then
       (true, mismatchReason "Currency" (Values_Get (URL_Query u) "currency")
                (Currency originalTx), None)
     else (false, "Payment link is legitimate", None), net').
Proof.
  intros Hu Hp Hm Ha Hf. unfold ValidatePaymentLink.
  rewrite Hu. cbv zeta. rewrite (parametersPresent_test _ Hp), Hm, Ha, Hf.
  destruct (negb (MerchantID originalTx =? merchantID)%Z); [reflexivity|].
  destruct (negb (Amount originalTx =? amount)%Z); [reflexivity|].
  destruct (negb (String.eqb (Currency originalTx) (Values_Get (URL_Query u) "currency")));
    reflexivity.
Qed.

(** Every [return] of the validator has a nil error. *)
Lemma ValidatePaymentLink_nil_error (net : Network) (linkUrl : string) :
  snd (fst (ValidatePaymentLink s net linkUrl)) = None.
Proof.
  unfold ValidatePaymentLink.
  destruct (url_Parse linkUrl) as [u|e0]; cbv zeta; [|reflexivity].
  destruct (_ || _); [reflexivity|].
  destruct (strconv_Atoi _) as [merchantID|e1]; [|reflexivity].
  destruct (strconv_ParseInt _) as [amount|e2]; [|reflexivity].
  destruct (GetTransactionDetailsByReference s net _) as [[originalTx|e3] net'].
  - destruct (MerchantID originalTx =? merchantID)%Z; [|reflexivity].
    destruct (Amount originalTx =? amount)%Z; [|reflexivity].
    destruct (String.eqb (Currency originalTx) _); reflexivity.
  - destruct (Contains (Error e3) "not found"); reflexivity.
Qed.

(** The only [return false, ...] is the last one: it is reached when the
    URL has parsed, no parameter is missing, both numbers have parsed and the
    transaction has been fetched. *)
Lemma ValidatePaymentLink_not_suspicious_inv (net : Network) (linkUrl : string) :
  fst (fst (fst (ValidatePaymentLink s net linkUrl))) = false ->
  exists u merchantID amount originalTx,
    url_Parse linkUrl = Ok u
    /\ ~ parameterMissing (URL_Query u)
    /\ strconv_Atoi (Values_Get (URL_Query u) "merchant_id") = Ok merchantID
    /\ strconv_ParseInt (Values_Get (URL_Query u) "amount") = Ok amount
    /\ fst (GetTransactionDetailsByReference s net (Values_Get (URL_Query u) "ref"))
       = Ok originalTx.
Proof.
  unfold ValidatePaymentLink.
  destruct (url_Parse linkUrl) as [u|e0] eqn:Hu; cbv zeta; [|discriminate].
  destruct (_ || _) eqn:Hmiss; [discriminate|].
  destruct (strconv_Atoi _) as [merchantID|e1] eqn:Hm; [|discriminate].
  destruct (strconv_ParseInt _) as [amount|e2] eqn:Ha; [|discriminate].
  destruct (GetTransactionDetailsByReference s net _) as [[originalTx|e3] net'] eqn:Hf.
  - intros _. exists u, merchantID, amount, originalTx.
    split; [reflexivity|]. split.
    { intros Hp. apply parameterMissing_test in Hp. congruence. }
    split; [exact Hm|]. split; [exact Ha|]. rewrite Hf. reflexivity.
  - destruct (Contains (Error e3) "not found"); discriminate.
Qed.

End Validator.

End services_facts.

Module services_claims.
Import services spec fixtures services_facts.

(** C3 as stated fails on the reason of a legitimate link: for a link
    whose merchant id, amount and currency all equal those of the fetched
    transaction the validator answers "Payment link is legitimate", with a
    capital P, which is not the string "payment link is legitimate". *)
Lemma ValidatePaymentLink_legitimate_reason_differs :
  fst (GetTransactionDetailsByReference exampleService oneTransactionNet "tx1") = Ok tx1
  /\ strconv_Atoi (Values_Get (parseQuery "ref=tx1&merchant_id=5&amount=1000&currency=NGN")
                     "merchant_id") = Ok (MerchantID tx1)
  /\ strconv_ParseInt (Values_Get (parseQuery "ref=tx1&merchant_id=5&amount=1000&currency=NGN")
                         "amount") = Ok (Amount tx1)
  /\ Values_Get (parseQuery "ref=tx1&merchant_id=5&amount=1000&currency=NGN") "currency"
     = Currency tx1
  /\ fst (ValidatePaymentLink exampleService oneTransactionNet link_tx1)
     = (false, "Payment link is legitimate", None)
  /\ snd (fst (fst (ValidatePaymentLink exampleService oneTransactionNet link_tx1)))
     <> "payment link is legitimate".
Proof.
  repeat split; try reflexivity.
  vm_compute. discriminate.
Qed.

Section Validator.
Context `{GoLib} {D : Type}.

(** C3, amended. For a link whose URL parses, whose four required
    parameters are present, whose merchant id and amount parse as integers
    and whose transaction is fetched, [ValidatePaymentLink] compares in this
    order the merchant id, the amount (as integers) and the currency (as
    strings) with the fetched transaction. The first that differs gives
    suspicious=true and a reason that shows the link's value and the
    transaction's value; if none differs the answer is suspicious=false with
    reason "Payment link is legitimate". The error is nil in every case. *)
Theorem ValidatePaymentLink_cross_checks (s : FraudService D) (net net' : Network)
    (linkUrl : string) (u : URL) (merchantID amount : Z) (originalTx : TransactionResponse) :
  url_Parse linkUrl = Ok u ->
  parametersPresent (URL_Query u) ->
  strconv_Atoi (Values_Get (URL_Query u) "merchant_id") = Ok merchantID ->
  strconv_ParseInt (Values_Get (URL_Query u) "amount") = Ok amount ->
  GetTransactionDetailsByReference s net (Values_Get (URL_Query u) "ref")
    = (Ok originalTx, net') ->
  let currency := Values_Get (URL_Query u) "currency" in
  let answer := fst (ValidatePaymentLink s net linkUrl) in
  (merchantID <> MerchantID originalTx ->
   reportsMismatch answer "Merchant ID" (fmt_d merchantID) (fmt_d (MerchantID originalTx)))
  /\ (merchantID = MerchantID originalTx -> amount <> Amount originalTx ->
      reportsMismatch answer "Amount" (fmt_d amount) (fmt_d (Amount originalTx)))
  /\ (merchantID = MerchantID originalTx -> amount = Amount originalTx ->
      currency <> Currency originalTx ->
      reportsMismatch answer "Currency" currency (Currency originalTx))
  /\ (merchantID = MerchantID originalTx -> amount = Amount originalTx ->
      currency = Currency originalTx ->
      answer = (false, "Payment link is legitimate", None)).
Proof.
  intros Hu Hp Hm Ha Hf currency answer. subst answer.
  rewrite (ValidatePaymentLink_fetched s net net' linkUrl u merchantID amount originalTx
             Hu Hp Hm Ha Hf).
  fold currency. cbn [fst].
  destruct (Z.eqb_spec (MerchantID originalTx) merchantID) as [Em|Em];
  destruct (Z.eqb_spec (Amount originalTx) amount) as [Ea|Ea];
  destruct (String.eqb_spec (Currency originalTx) currency) as [Ec|Ec];
  cbn [negb]; repeat split; intros; try congruence; apply reportsMismatch_intro.
Qed.

(** C4. [ValidatePaymentLink] returns a nil error on every input, and each
    kind of bad input or failed fetch gives suspicious=true: a URL that does
    not parse, a missing required parameter, a merchant id or an amount that
    is not an integer, and any failure to fetch the transaction, a reference
    that is not found included. *)
Theorem ValidatePaymentLink_no_hard_error (s : FraudService D) (net : Network)
    (linkUrl : string) :
  let answer := fst (ValidatePaymentLink s net linkUrl) in
  snd answer = None
  /\ (forall e, url_Parse linkUrl = Err e -> fst (fst answer) = true)
  /\ (forall u, url_Parse linkUrl = Ok u ->
        (parameterMissing (URL_Query u) -> fst (fst answer) = true)
        /\ (forall e, strconv_Atoi (Values_Get (URL_Query u) "merchant_id") = Err e ->
              fst (fst answer) = true)
        /\ (forall e, strconv_ParseInt (Values_Get (URL_Query u) "amount") = Err e ->
              fst (fst answer) = true)
        /\ (forall e, fst (GetTransactionDetailsByReference s net
                             (Values_Get (URL_Query u) "ref")) = Err e ->
              fst (fst answer) = true)).
Proof.
  cbv zeta. split; [apply ValidatePaymentLink_nil_error|].
  destruct (fst (fst (fst (ValidatePaymentLink s net linkUrl)))) eqn:Hans.
  { repeat split; intros; reflexivity. }
  destruct (ValidatePaymentLink_not_suspicious_inv s net linkUrl Hans)
    as (u & merchantID & amount & originalTx & Hu & Hp & Hm & Ha & Hf).
  split; [intros e He; congruence|].
  intros u' Hu'. assert (u' = u) as -> by congruence.
  repeat split; intros; congruence || contradiction.
Qed.

(** C7. For a link whose URL parses and that lacks one of [ref],
    [merchant_id], [amount] and [currency], [ValidatePaymentLink] answers
    suspicious=true with the reason "Missing required parameters in payment
    link (ref, merchant_id, amount, currency)" and sends no request: the
    network, its log of requests included, is returned as it was given, and
    the answer is the same whatever network the service is given. *)
Theorem ValidatePaymentLink_missing_parameter (s : FraudService D) (net other : Network)
    (linkUrl : string) (u : URL) :
  url_Parse linkUrl = Ok u ->
  parameterMissing (URL_Query u) ->
  ValidatePaymentLink s net linkUrl =
    ((true, "Missing required parameters in payment link (ref, merchant_id, amount, currency)",
      None), net)
  /\ requests (snd (ValidatePaymentLink s net linkUrl)) = requests net
  /\ fst (ValidatePaymentLink s other linkUrl) = fst (ValidatePaymentLink s net linkUrl).
Proof.
  intros Hu Hm.
  assert (Hany : forall n, ValidatePaymentLink s n linkUrl =
    ((true, "Missing required parameters in payment link (ref, merchant_id, amount, currency)",
      None), n)).
  { intros n. unfold ValidatePaymentLink. rewrite Hu. cbv zeta.
    rewrite (parameterMissing_test _ Hm). reflexivity. }
  rewrite !Hany. repeat split.
Qed.

(** C9. [Evaluate] answers score 0.1 (the binary64 nearest to it) and
    decision ["approve"] to every request, whatever the request and whatever
    the service holds: no detector, rule or repository takes part. *)
Theorem Evaluate_constant (s : FraudService D) (req : dto.RiskEvaluateRequest) :
  Evaluate s req = {| dto.Score := 0x1.999999999999ap-4%float; dto.Decision := "approve" |}
  /\ forall (D' : Type) (s' : FraudService D') (req' : dto.RiskEvaluateRequest),
       Evaluate s' req' = Evaluate s req.
Proof. split; reflexivity. Qed.

End Validator.

Lemma ValidatePaymentLink_cross_checks_witness :
  reportsMismatch
    (fst (ValidatePaymentLink exampleService oneTransactionNet
            "https://pay.example.com/pay?ref=tx1&merchant_id=9&amount=1000&currency=NGN"))
    "Merchant ID" "9" "5".
Proof.
  refine (proj1 (ValidatePaymentLink_cross_checks exampleService oneTransactionNet
            {| transport := transport oneTransactionNet;
               requests := ["http://transaction-service:7000/transactions/tx1"] |}
            "https://pay.example.com/pay?ref=tx1&merchant_id=9&amount=1000&currency=NGN"
            "ref=tx1&merchant_id=9&amount=1000&currency=NGN" 9 1000 tx1
            eq_refl _ eq_refl eq_refl eq_refl) _).
  - repeat split; vm_compute; discriminate.
  - vm_compute. discriminate.
Defined.

Lemma ValidatePaymentLink_missing_parameter_witness :
  ValidatePaymentLink exampleService downNet link_no_amount =
    ((true, "Missing required parameters in payment link (ref, merchant_id, amount, currency)",
      None), downNet).
Proof.
  refine (proj1 (ValidatePaymentLink_missing_parameter exampleService downNet oneTransactionNet
            link_no_amount "ref=tx1&merchant_id=5&currency=NGN" eq_refl _)).
  right. right. left. reflexivity.
Defined.

Lemma ValidatePaymentLink_no_hard_error_witness :
  fst (fst (fst (ValidatePaymentLink exampleService oneTransactionNet
                   "https://pay.example.com/pay?ref=tx1&merchant_id=five&amount=1000&currency=NGN")))
  = true.
Proof.
  refine (proj1 (proj2 (proj2 (proj2 (ValidatePaymentLink_no_hard_error
            exampleService oneTransactionNet
            "https://pay.example.com/pay?ref=tx1&merchant_id=five&amount=1000&currency=NGN"))
            "ref=tx1&merchant_id=five&amount=1000&currency=NGN" eq_refl))
            (errorString "invalid syntax") eq_refl).
Defined.

End services_claims.

(* ===================================================================== *)
(** ** Further properties of the detector                                 *)
(* ===================================================================== *)

#[local] Set Warnings "-clear-no-such-hyp".

Module detector_more_facts.
Import repository fraud spec detector_ops detector_facts.

Section Loop.
Context {R : Type} `{FraudDataRepository R}.
Variable d : R.
Variable transactionData : gmap string value.

(** The four ways the loop body can end. *)
Lemma ruleBody_cases (r : FraudRule.t) (st : loopState) :
  ruleBody d transactionData r st = Next st
  \/ (exists e, ruleBody d transactionData r st = Return e)
  \/ (FraudRule.Enabled r = true /\ FraudRule.Decision r = "deny"
      /\ ruleBody d transactionData r st =
         Break {| totalScore := PrimFloat.add (totalScore st) (FraudRule.ScoreImpact r);
                  decision := setDecision
                                (appendReason (decision st) (FraudRule.Description r))
                                "deny" |})
  \/ (FraudRule.Enabled r = true /\ FraudRule.Decision r <> "deny"
      /\ exists verdict,
           ruleBody d transactionData r st =
           Next {| totalScore := PrimFloat.add (totalScore st) (FraudRule.ScoreImpact r);
                   decision := setDecision
                                 (appendReason (decision st) (FraudRule.Description r))
                                 verdict |}
           /\ ((FraudRule.Decision r = "flag" /\ verdict = "flag")
               \/ (FraudRule.Decision r <> "flag"
                   /\ verdict = FraudDecision.Decision (decision st))
               \/ (FraudDecision.Decision (decision st) = "deny" /\ verdict = "deny"))).
Proof.
  unfold ruleBody. destruct (FraudRule.Enabled r); simpl; [|auto].
  destruct (evalTrigger d transactionData r) as [[|] [e|]]; eauto.
  destruct (String.eqb_spec (FraudRule.Decision r) "deny") as [Hd|Hd].
  { right. right. left. auto. }
  right. right. right. split; [reflexivity|]. split; [exact Hd|].
  destruct (String.eqb_spec (FraudRule.Decision r) "flag") as [Hf|Hf]; simpl.
  - destruct (String.eqb_spec (FraudDecision.Decision (decision st)) "deny") as [Hs|Hs];
      simpl.
    + exists "deny". split; [|auto].
      unfold setDecision, appendReason. simpl. rewrite Hs. reflexivity.
    + exists "flag". auto.
  - exists (FraudDecision.Decision (decision st)). split; [|auto].
    destruct st as [ts [os ds rs]]. reflexivity.
Qed.

(** A [break] leaves the decision ["deny"]. *)
Lemma ruleLoop_Break (l : list FraudRule.t) (st st' : loopState) :
  ruleLoop d transactionData l st = Break st' ->
  FraudDecision.Decision (decision st') = "deny".
Proof.
  revert st. induction l as [|r l IH]; intros st; simpl; [discriminate|].
  destruct (ruleBody_cases r st) as [Hb | [[e Hb] | [(_ & _ & Hb) | (_ & _ & v & Hb & _)]]];
    rewrite Hb; eauto; try discriminate.
  intros [= <-]. reflexivity.
Qed.

(** The reasons the loop adds are descriptions of enabled rules, in
    catalog order; if it adds none, it has changed nothing. *)
Lemma ruleLoop_reasons (l : list FraudRule.t) (st st' : loopState) :
  ruleLoop d transactionData l st = Next st' \/ ruleLoop d transactionData l st = Break st' ->
  exists added,
    FraudDecision.Reasons (decision st') = (FraudDecision.Reasons (decision st) ++ added)%list
    /\ added `sublist_of` enabledDescriptions l
    /\ (added = [] -> st' = st).
Proof.
  revert st. induction l as [|r l IH]; intros st; simpl.
  { intros [[= <-] | [=]]. exists []. rewrite app_nil_r. repeat split. constructor. }
  assert (Hskip : forall added, added `sublist_of` enabledDescriptions l ->
                                added `sublist_of` enabledDescriptions (r :: l)).
  { intros added Hs. unfold enabledDescriptions. simpl.
    destruct (FraudRule.Enabled r); simpl; [apply sublist_cons|]; exact Hs. }
  destruct (ruleBody_cases r st) as [Hb | [[e Hb] | [(He & _ & Hb) | (He & _ & v & Hb & _)]]];
    rewrite Hb.
  - intros Hl. destruct (IH _ Hl) as (added & Hr & Hs & He). exists added. auto.
  - intros [[=] | [=]].
  - intros [[=] | [= <-]]. exists [FraudRule.Description r]. simpl.
    split; [reflexivity|]. split; [|discriminate].
    unfold enabledDescriptions. simpl. rewrite He. simpl.
    apply sublist_skip, sublist_nil_l.
  - intros Hl. destruct (IH _ Hl) as (added & Hr & Hs & _).
    exists (FraudRule.Description r :: added). simpl in Hr.
    split; [rewrite Hr, <- app_assoc; reflexivity|]. split; [|discriminate].
    unfold enabledDescriptions. simpl. rewrite He. simpl. apply sublist_skip. exact Hs.
Qed.

(** In a catalog whose rules all hint ["flag"] or ["deny"], a loop that
    runs to its end has either changed nothing or flagged. *)
Lemma ruleLoop_hinted (l : list FraudRule.t) (st st' : loopState) :
  allHinted l -> undecided st ->
  ruleLoop d transactionData l st = Next st' ->
  st' = st \/ FraudDecision.Decision (decision st') = "flag".
Proof.
  revert st. induction l as [|r l IH]; intros st Hh Hu; simpl.
  { intros [= <-]. auto. }
  assert (Hl : allHinted l) by (intros x Hx; apply Hh; right; exact Hx).
  destruct (ruleBody_cases r st) as [Hb | [[e Hb] | [(_ & _ & Hb) | (_ & Hnd & v & Hb & Hv)]]];
    rewrite Hb; try discriminate.
  - apply IH; assumption.
  - intros Hloop. right.
    assert (Hflag : v = "flag").
    { destruct (Hh r (or_introl eq_refl)) as [Hf | Hf]; [|contradiction].
      destruct Hv as [[_ ->] | [[Hnf _] | [Hsd _]]]; [reflexivity|contradiction|].
      destruct Hu as [Hu | Hu]; rewrite Hu in Hsd; discriminate. }
    subst v.
    match type of Hloop with ruleLoop _ _ _ ?s1 = _ => set (st1 := s1) in * end.
    assert (Hu1 : undecided st1) by (right; reflexivity).
    destruct (IH st1 Hl Hu1 Hloop) as [-> | Hf]; [reflexivity|exact Hf].
Qed.

(** A rule that is disabled leaves the loop state as it is. *)
Lemma ruleBody_disabled (r : FraudRule.t) (st : loopState) :
  FraudRule.Enabled r = false -> ruleBody d transactionData r st = Next st.
Proof. intros He. unfold ruleBody. rewrite He. reflexivity. Qed.

(** For the two ids the detector handles itself the predicate is not
    called. *)
Lemma ruleBody_withPredicate (r : FraudRule.t)
    (p : gmap string value -> bool * option error) (st : loopState) :
  FraudRule.ID r = "HIGH_VELOCITY_CUSTOMER" \/ FraudRule.ID r = "SUSPICIOUS_IP_ORIGIN" ->
  ruleBody d transactionData (withPredicate r p) st = ruleBody d transactionData r st.
Proof.
  intros Hid. unfold ruleBody, evalTrigger. simpl.
  destruct Hid as [-> | ->]; reflexivity.
Qed.

End Loop.

(** The in-memory repository never makes a rule fail. *)
Lemma InMemory_no_fetchFailure (mem : InMemoryFraudDataRepository)
    (transactionData : gmap string value) (r : FraudRule.t) (e : error) :
  ~ fetchFailure mem transactionData r e.
Proof.
  intros [(_ & c & h & re & _ & Hg & _) | (_ & o & m & re & _ & Hg & _)]; simpl in Hg.
  - unfold InMemory_GetTransactionHistory in Hg.
    destruct (transactions mem !! c); discriminate.
  - unfold InMemory_GetIPData in Hg. destruct (ipData mem !! o); discriminate.
Qed.

(** With the default catalog on the in-memory repository
    [CheckTransaction] has a nil error. *)
Lemma CheckTransaction_default_no_error (mem : InMemoryFraudDataRepository)
    (given : list FraudRule.t) (transactionData : gmap string value) :
  given = [] \/ given = DefaultRules ->
  snd (CheckTransaction (NewRuleBasedFraudDetector mem given) transactionData) = None.
Proof.
  intros Hg.
  assert (Hr : rules (NewRuleBasedFraudDetector mem given) = DefaultRules).
  { destruct Hg as [-> | ->]; reflexivity. }
  unfold CheckTransaction. rewrite Hr. simpl repo.
  destruct (ruleLoop mem transactionData DefaultRules initState) as [st|st|e] eqn:Hl;
    try reflexivity.
  exfalso. apply ruleLoop_Return in Hl. destruct Hl as (r & Hin & _ & [Hf | Hp]).
  - eapply InMemory_no_fetchFailure; eauto.
  - destruct Hp as (_ & _ & b & err & Hp & _).
    pose proof (DefaultRules_predicates_never_fail r transactionData Hin) as Hn.
    rewrite Hp in Hn. discriminate.
Qed.

Lemma finalDecision_Reasons (st : loopState) :
  FraudDecision.Reasons (finalDecision st) = FraudDecision.Reasons (decision st).
Proof.
  unfold finalDecision.
  destruct (negb _); [|reflexivity].
  destruct (PrimFloat.leb 100 (totalScore st)); [reflexivity|].
  destruct (PrimFloat.leb 50 (totalScore st)); reflexivity.
Qed.

(** A successful call with no reason has left the initial state. *)
Lemma CheckTransaction_no_reason {R : Type} `{FraudDataRepository R}
    (d : RuleBasedFraudDetector R) (transactionData : gmap string value)
    (dec : FraudDecision.t) :
  CheckTransaction d transactionData = (dec, None) ->
  FraudDecision.Reasons dec = [] ->
  dec = {| FraudDecision.OverallScore := 0%float;
           FraudDecision.Decision := "approve";
           FraudDecision.Reasons := [] |}.
Proof.
  unfold CheckTransaction.
  destruct (ruleLoop (repo d) transactionData (rules d) initState) as [st|st|e] eqn:Hl;
    [| |discriminate]; intros [= <-]; rewrite finalDecision_Reasons; intros He.
  - destruct (ruleLoop_reasons (repo d) transactionData (rules d) initState st
                (or_introl Hl)) as (added & Hr & _ & Hn).
    simpl in Hr. rewrite (Hn (eq_trans (eq_sym Hr) He)). reflexivity.
  - destruct (ruleLoop_reasons (repo d) transactionData (rules d) initState st
                (or_intror Hl)) as (added & Hr & _ & Hn).
    simpl in Hr. pose proof (ruleLoop_Break _ _ _ _ _ Hl) as Hd.
    rewrite (Hn (eq_trans (eq_sym Hr) He)) in Hd. discriminate.
Qed.

End detector_more_facts.

Module detector_extra.
Import repository fraud spec fixtures fixtures_more detector_ops detector_facts
  detector_more_facts.

(** A disabled rule has no effect: wherever it stands in the catalog and
    whatever its predicate or the repository would do, [CheckTransaction]
    returns what it returns on the catalog without it. *)
Theorem CheckTransaction_disabled_rule_ignored
    {R : Type} `{FraudDataRepository R} (d : R) (transactionData : gmap string value)
    (pre post : list FraudRule.t) (r : FraudRule.t) :
  FraudRule.Enabled r = false ->
  CheckTransaction {| repo := d; rules := pre ++ r :: post |} transactionData =
  CheckTransaction {| repo := d; rules := pre ++ post |} transactionData.
Proof.
  intros He. unfold CheckTransaction. simpl. rewrite !ruleLoop_app.
  destruct (ruleLoop d transactionData pre initState) as [st| |]; try reflexivity.
  rewrite ruleLoop_cons, (ruleBody_disabled d transactionData r st He). reflexivity.
Qed.

Lemma CheckTransaction_disabled_rule_ignored_witness :
  CheckTransaction {| repo := emptyRepo;
                      rules := [disabledBlockAllRule; highAmountRule] |} event_c1 =
  CheckTransaction {| repo := emptyRepo; rules := [highAmountRule] |} event_c1.
Proof.
  apply (CheckTransaction_disabled_rule_ignored emptyRepo event_c1 [] [highAmountRule]
           disabledBlockAllRule).
  reflexivity.
Defined.

(** The predicate of a rule whose id is HIGH_VELOCITY_CUSTOMER or
    SUSPICIOUS_IP_ORIGIN is never called: replacing it by any other
    predicate, even one that fails, does not change the result of
    [CheckTransaction]. *)
Theorem CheckTransaction_builtin_ids_ignore_predicate
    {R : Type} `{FraudDataRepository R} (d : R) (transactionData : gmap string value)
    (pre post : list FraudRule.t) (r : FraudRule.t)
    (p : gmap string value -> bool * option error) :
  FraudRule.ID r = "HIGH_VELOCITY_CUSTOMER" \/ FraudRule.ID r = "SUSPICIOUS_IP_ORIGIN" ->
  CheckTransaction {| repo := d; rules := pre ++ withPredicate r p :: post |} transactionData =
  CheckTransaction {| repo := d; rules := pre ++ r :: post |} transactionData.
Proof.
  intros Hid. unfold CheckTransaction. simpl. rewrite !ruleLoop_app.
  destruct (ruleLoop d transactionData pre initState) as [st| |]; try reflexivity.
  rewrite !ruleLoop_cons, (ruleBody_withPredicate d transactionData r p st Hid).
  reflexivity.
Qed.

Lemma CheckTransaction_builtin_ids_ignore_predicate_witness :
  CheckTransaction
    {| repo := emptyRepo;
       rules := [highAmountRule;
                 withPredicate suspiciousIPRule
                   (fun _ => (false, Some (errorString "never called")))] |} event_c1 =
  CheckTransaction {| repo := emptyRepo; rules := [highAmountRule; suspiciousIPRule] |}
    event_c1.
Proof.
  apply (CheckTransaction_builtin_ids_ignore_predicate emptyRepo event_c1
           [highAmountRule] [] suspiciousIPRule
           (fun _ => (false, Some (errorString "never called")))).
  right. reflexivity.
Defined.

(** A successful [CheckTransaction] returns one of the three decisions
    ["approve"], ["flag"], ["deny"], whatever strings the rules carry as
    hints, and it returns ["approve"] only with a score that reaches neither
    threshold. *)
Theorem CheckTransaction_decision_values
    {R : Type} `{FraudDataRepository R} (d : RuleBasedFraudDetector R)
    (transactionData : gmap string value) (dec : FraudDecision.t) :
  CheckTransaction d transactionData = (dec, None) ->
  (FraudDecision.Decision dec = "approve" \/ FraudDecision.Decision dec = "flag"
   \/ FraudDecision.Decision dec = "deny")
  /\ (FraudDecision.Decision dec = "approve" ->
      PrimFloat.leb 50%float (FraudDecision.OverallScore dec) = false
      /\ PrimFloat.leb 100%float (FraudDecision.OverallScore dec) = false).
Proof.
  unfold CheckTransaction.
  destruct (ruleLoop (repo d) transactionData (rules d) initState) as [st|st|e] eqn:Hl;
    [| |discriminate]; intros [= <-].
  - assert (Hu : undecided st).
    { eapply ruleLoop_undecided; [|exact Hl]. left. reflexivity. }
    unfold finalDecision. simpl.
    assert (Hnd : String.eqb (FraudDecision.Decision (decision st)) "deny" = false).
    { destruct Hu as [-> | ->]; reflexivity. }
    rewrite Hnd. simpl.
    destruct (PrimFloat.leb 100 (totalScore st)) eqn:H100; simpl;
      [split; [auto|discriminate]|].
    destruct (PrimFloat.leb 50 (totalScore st)) eqn:H50; simpl;
      [split; [auto|discriminate]|].
    split; [destruct Hu; auto|auto].
  - apply ruleLoop_Break in Hl. unfold finalDecision. simpl. rewrite Hl. simpl.
    split; [auto|]. rewrite Hl. discriminate.
Qed.

Lemma CheckTransaction_decision_values_witness :
  PrimFloat.leb 50%float 0%float = false /\ PrimFloat.leb 100%float 0%float = false.
Proof.
  apply (CheckTransaction_decision_values
           {| repo := emptyRepo; rules := DefaultRules |} event_c2
           {| FraudDecision.OverallScore := 0%float;
              FraudDecision.Decision := "approve";
              FraudDecision.Reasons := [] |}); reflexivity.
Defined.

(** The reasons of a successful [CheckTransaction] are descriptions of
    enabled rules of the catalog, each rule giving at most one, in catalog
    order; and when there is no reason the score is 0 and the decision is
    ["approve"]. *)
Theorem CheckTransaction_reasons_from_catalog
    {R : Type} `{FraudDataRepository R} (d : RuleBasedFraudDetector R)
    (transactionData : gmap string value) (dec : FraudDecision.t) :
  CheckTransaction d transactionData = (dec, None) ->
  FraudDecision.Reasons dec `sublist_of` enabledDescriptions (rules d)
  /\ (FraudDecision.Reasons dec = [] ->
      dec = {| FraudDecision.OverallScore := 0%float;
               FraudDecision.Decision := "approve";
               FraudDecision.Reasons := [] |}).
Proof.
  intros Hc. split; [|apply (CheckTransaction_no_reason d transactionData dec Hc)].
  revert Hc. unfold CheckTransaction.
  destruct (ruleLoop (repo d) transactionData (rules d) initState) as [st|st|e] eqn:Hl;
    [| |discriminate]; intros [= <-]; rewrite finalDecision_Reasons.
  - destruct (ruleLoop_reasons (repo d) transactionData (rules d) initState st
                (or_introl Hl)) as (added & Hr & Hs & _).
    simpl in Hr. rewrite Hr. exact Hs.
  - destruct (ruleLoop_reasons (repo d) transactionData (rules d) initState st
                (or_intror Hl)) as (added & Hr & Hs & _).
    simpl in Hr. rewrite Hr. exact Hs.
Qed.

Lemma CheckTransaction_reasons_from_catalog_witness :
  ["Flags transactions with amounts exceeding a high threshold.";
   "Flags transactions originating from suspicious IP addresses."]
  `sublist_of` enabledDescriptions DefaultRules.
Proof.
  apply (CheckTransaction_reasons_from_catalog
           {| repo := emptyRepo; rules := DefaultRules |} event_c1
           {| FraudDecision.OverallScore := 120%float;
              FraudDecision.Decision := "deny";
              FraudDecision.Reasons :=
                ["Flags transactions with amounts exceeding a high threshold.";
                 "Flags transactions originating from suspicious IP addresses."] |}).
  reflexivity.
Defined.

(** In a catalog whose rules all hint ["flag"] or ["deny"] (the default
    catalog is one), a successful [CheckTransaction] approves exactly when no
    rule has triggered, that is when the list of reasons is empty. *)
Theorem CheckTransaction_approve_iff_no_reason
    {R : Type} `{FraudDataRepository R} (d : RuleBasedFraudDetector R)
    (transactionData : gmap string value) (dec : FraudDecision.t) :
  allHinted (rules d) ->
  CheckTransaction d transactionData = (dec, None) ->
  (FraudDecision.Decision dec = "approve" <-> FraudDecision.Reasons dec = []).
Proof.
  intros Hh Hc. split.
  - revert Hc. unfold CheckTransaction.
    destruct (ruleLoop (repo d) transactionData (rules d) initState) as [st|st|e] eqn:Hl;
      [| |discriminate]; intros [= <-].
    + assert (Hu0 : undecided initState) by (left; reflexivity).
      destruct (ruleLoop_hinted (repo d) transactionData (rules d) initState st Hh Hu0 Hl)
        as [-> | Hf]; [reflexivity|].
      unfold finalDecision. simpl. rewrite Hf. simpl.
      destruct (PrimFloat.leb 100 (totalScore st)); simpl; [discriminate|].
      destruct (PrimFloat.leb 50 (totalScore st)); simpl; [discriminate|].
      rewrite Hf. discriminate.
    + apply ruleLoop_Break in Hl. unfold finalDecision. simpl. rewrite Hl. simpl.
      rewrite Hl. discriminate.
  - intros Hr. rewrite (CheckTransaction_no_reason d transactionData dec Hc Hr).
    reflexivity.
Qed.

Lemma CheckTransaction_approve_iff_no_reason_witness :
  FraudDecision.Decision
    {| FraudDecision.OverallScore := 0%float;
       FraudDecision.Decision := "approve";
       FraudDecision.Reasons := [] |} = "approve"
  <-> @nil string = [].
Proof.
  apply (CheckTransaction_approve_iff_no_reason
           {| repo := emptyRepo; rules := DefaultRules |} event_c2
           {| FraudDecision.OverallScore := 0%float;
              FraudDecision.Decision := "approve";
              FraudDecision.Reasons := [] |}).
  - intros r [<- | [<- | [<- | []]]]; left; reflexivity.
  - reflexivity.
Defined.

(** Seeding and detection compose: once [AddIPData] has recorded an
    address with [is_vpn] true, the default catalog never approves an event
    from that origin, whatever else the event and the repository hold: the
    call succeeds, the decision is not ["approve"], and the description of
    SUSPICIOUS_IP_ORIGIN is among the reasons. *)
Theorem CheckTransaction_vpn_origin_not_approved (mem : InMemoryFraudDataRepository)
    (ip : string) (info transactionData : gmap string value) :
  info !! "is_vpn" = Some (VBool true) ->
  asString (transactionData !! "origin") = Some ip ->
  snd (CheckTransaction (NewRuleBasedFraudDetector (AddIPData mem ip info) DefaultRules)
         transactionData) = None
  /\ FraudDecision.Decision
       (fst (CheckTransaction (NewRuleBasedFraudDetector (AddIPData mem ip info) DefaultRules)
               transactionData)) <> "approve"
  /\ In (FraudRule.Description suspiciousIPRule)
        (FraudDecision.Reasons
           (fst (CheckTransaction
                   (NewRuleBasedFraudDetector (AddIPData mem ip info) DefaultRules)
                   transactionData))).
Proof.
  intros Hinfo Ho.
  set (mem' := AddIPData mem ip info).
  assert (Hget : GetIPData mem' ip = (Some info, None)).
  { simpl. unfold InMemory_GetIPData, mem', AddIPData. simpl.
    rewrite lookup_insert_eq. reflexivity. }
  assert (H2 : forall st, ruleBody mem' transactionData suspiciousIPRule st =
     Next {| totalScore := PrimFloat.add (totalScore st) 70%float;
             decision :=
               if String.eqb (FraudDecision.Decision (decision st)) "deny"
               then appendReason (decision st) (FraudRule.Description suspiciousIPRule)
               else setDecision
                      (appendReason (decision st) (FraudRule.Description suspiciousIPRule))
                      "flag" |}).
  { intros st. unfold ruleBody, evalTrigger.
    cbn [FraudRule.Enabled FraudRule.ID suspiciousIPRule negb].
    change (String.eqb "SUSPICIOUS_IP_ORIGIN" "HIGH_VELOCITY_CUSTOMER") with false.
    change (String.eqb "SUSPICIOUS_IP_ORIGIN" "SUSPICIOUS_IP_ORIGIN") with true.
    cbv iota. rewrite Ho, Hget, Hinfo.
    cbn [orb FraudRule.Decision FraudRule.ScoreImpact FraudRule.Description].
    change (String.eqb "flag" "deny") with false.
    change (String.eqb "flag" "flag") with true.
    cbv iota. cbn [andb appendReason FraudDecision.Decision].
    destruct (String.eqb (FraudDecision.Decision (decision st)) "deny"); reflexivity. }
  assert (H1 : ruleBody mem' transactionData highAmountRule initState = Next initState
          \/ ruleBody mem' transactionData highAmountRule initState =
             Next {| totalScore := 50%float;
                     decision := {| FraudDecision.OverallScore := 0%float;
                                    FraudDecision.Decision := "flag";
                                    FraudDecision.Reasons :=
                                      [FraudRule.Description highAmountRule] |} |}).
  { unfold ruleBody, evalTrigger.
    cbn [FraudRule.Enabled FraudRule.ID highAmountRule negb FraudRule.Predicate].
    change (String.eqb "HIGH_AMOUNT_TRANSACTION" "HIGH_VELOCITY_CUSTOMER") with false.
    change (String.eqb "HIGH_AMOUNT_TRANSACTION" "SUSPICIOUS_IP_ORIGIN") with false.
    cbv iota. unfold highAmountPredicate.
    destruct (asFloat (transactionData !! "amount")) as [a|]; [|left; reflexivity].
    destruct (PrimFloat.ltb 1000 a); [right|left]; reflexivity. }
  assert (H3 : forall st, FraudDecision.Decision (decision st) = "flag" ->
     ruleBody mem' transactionData highVelocityRule st = Next st \/
     ruleBody mem' transactionData highVelocityRule st =
     Next {| totalScore := PrimFloat.add (totalScore st) 60%float;
             decision := setDecision
                           (appendReason (decision st)
                              (FraudRule.Description highVelocityRule)) "flag" |}).
  { intros st Hst. unfold ruleBody, evalTrigger.
    cbn [FraudRule.Enabled FraudRule.ID highVelocityRule negb].
    change (String.eqb "HIGH_VELOCITY_CUSTOMER" "HIGH_VELOCITY_CUSTOMER") with true.
    cbv iota.
    destruct (asString (transactionData !! "customer_id")) as [c|]; [|left; reflexivity].
    destruct (GetTransactionHistory mem' c (24 * Hour)%Z) as [h [e|]] eqn:Hh.
    { simpl in Hh. unfold InMemory_GetTransactionHistory in Hh.
      destruct (transactions mem' !! c); discriminate. }
    destruct (PrimFloat.ltb _ _); [right|left; reflexivity].
    cbn [FraudRule.Decision FraudRule.ScoreImpact FraudRule.Description appendReason
           FraudDecision.Decision].
    rewrite Hst. reflexivity. }
  unfold CheckTransaction, NewRuleBasedFraudDetector, DefaultRules.
  cbn [rules repo length Nat.eqb].
  rewrite ruleLoop_cons.
  destruct H1 as [-> | ->]; rewrite ruleLoop_cons, H2;
    match goal with |- context [ruleLoop _ _ _ ?st] =>
      destruct (H3 st eq_refl) as [H | H]; rewrite ruleLoop_cons, H end;
    cbn [ruleLoop fst snd]; (split; [reflexivity|]); split;
    try (vm_compute; discriminate); vm_compute; tauto.
Qed.

Lemma CheckTransaction_vpn_origin_not_approved_witness :
  FraudDecision.Decision
    (fst (CheckTransaction
            (NewRuleBasedFraudDetector
               (AddIPData emptyRepo "10.0.0.7" (<["is_vpn" := VBool true]> ∅)) DefaultRules)
            event_c2)) <> "approve".
Proof.
  apply (CheckTransaction_vpn_origin_not_approved emptyRepo "10.0.0.7"
           (<["is_vpn" := VBool true]> ∅) event_c2); reflexivity.
Defined.

(** The velocity rule counts strictly: with the default threshold 5 on
    the in-memory repository, a customer with at most five transactions in
    the last 24 hours does not trigger it, and a customer with exactly six
    does. *)
Theorem velocity_rule_boundary (mem : InMemoryFraudDataRepository)
    (transactionData : gmap string value) (customerID : string) :
  asString (transactionData !! "customer_id") = Some customerID ->
  let n := length (fst (GetTransactionHistory mem customerID (24 * Hour)%Z)) in
  (n <= 5 -> evalTrigger mem transactionData highVelocityRule = (false, None))
  /\ (n = 6 -> evalTrigger mem transactionData highVelocityRule = (true, None)).
Proof.
  intros Hc n. unfold evalTrigger.
  cbn [FraudRule.ID highVelocityRule FraudRule.Threshold].
  change (String.eqb "HIGH_VELOCITY_CUSTOMER" "HIGH_VELOCITY_CUSTOMER") with true.
  cbv iota. rewrite Hc. subst n.
  destruct (GetTransactionHistory mem customerID (24 * Hour)%Z) as [h [e|]] eqn:Hh.
  { simpl in Hh. unfold InMemory_GetTransactionHistory in Hh.
    destruct (transactions mem !! customerID); discriminate. }
  cbn [fst]. split.
  - intros Hn.
    do 6 (destruct h as [|? h]; [reflexivity|]). simpl in Hn. lia.
  - intros Hn.
    do 6 (destruct h as [|? h]; [discriminate|]).
    destruct h; [reflexivity|discriminate].
Qed.

Lemma velocity_rule_boundary_witness :
  length (fst (GetTransactionHistory sixRecentRepo "c1" (24 * Hour)%Z)) = 6
  /\ evalTrigger sixRecentRepo event_c1 highVelocityRule = (true, None)
  /\ length (fst (GetTransactionHistory twoRecordsRepo "c1" (24 * Hour)%Z)) = 2
  /\ evalTrigger twoRecordsRepo event_c1 highVelocityRule = (false, None)
  /\ evalTrigger emptyRepo event_c1 highVelocityRule = (false, None).
Proof.
  split; [reflexivity|]. split; [|split; [reflexivity|split]].
  - exact (proj2 (velocity_rule_boundary sixRecentRepo event_c1 "c1" eq_refl) eq_refl).
  - refine (proj1 (velocity_rule_boundary twoRecordsRepo event_c1 "c1" eq_refl) _).
    vm_compute. lia.
  - refine (proj1 (velocity_rule_boundary emptyRepo event_c1 "c1" eq_refl) _).
    vm_compute. lia.
Defined.

(** The detector's own link check needs a non-empty string under [url]
    (otherwise it fails with an error), and it reports a link as suspicious
    exactly when the link is the string "http://malicious-site.com": any
    other link, a longer URL on that host included, is reported safe. *)
Theorem detector_TrackPaymentLink_verdict {R : Type} (d : RuleBasedFraudDetector R)
    (linkData : gmap string value) :
  (snd (TrackPaymentLink d linkData) <> None <->
   asString (linkData !! "url") = None \/ asString (linkData !! "url") = Some "")
  /\ (fst (fst (TrackPaymentLink d linkData)) = true <->
      asString (linkData !! "url") = Some "http://malicious-site.com")
  /\ (forall link, asString (linkData !! "url") = Some link -> link <> "" ->
      link <> "http://malicious-site.com" ->
      TrackPaymentLink d linkData = (false, "Payment link appears safe", None)).
Proof.
  unfold TrackPaymentLink, containsSuspiciousPattern.
  destruct (asString (linkData !! "url")) as [link|]; [|simpl; naive_solver].
  destruct (String.eqb_spec link "") as [->|Hne]; simpl; [naive_solver|].
  destruct (String.eqb_spec link "http://malicious-site.com") as [->|Hnm]; simpl;
    naive_solver.
Qed.

Lemma detector_TrackPaymentLink_verdict_witness :
  TrackPaymentLink {| repo := emptyRepo; rules := DefaultRules |}
    (<["url" := VString "http://malicious-site.com/pay"]> ∅)
  = (false, "Payment link appears safe", None).
Proof.
  refine (proj2 (proj2 (detector_TrackPaymentLink_verdict
            {| repo := emptyRepo; rules := DefaultRules |}
            (<["url" := VString "http://malicious-site.com/pay"]> ∅)))
            "http://malicious-site.com/pay" eq_refl _ _); discriminate.
Defined.

(** [ValidatePaymentChannel] fails exactly when [channel_type] or
    [transaction_id] is not a non-empty string; when it succeeds, its first
    result is true exactly for the transaction "fraud_cc_txn_123" on channel
    "credit_card" and the transaction "fraud_bank_txn_456" on channel
    "bank_transfer" (the first result marks a fraudulent transaction, not a
    valid one). *)
Theorem detector_ValidatePaymentChannel_verdict {R : Type} (d : RuleBasedFraudDetector R)
    (channelData : gmap string value) :
  (snd (ValidatePaymentChannel d channelData) = None <->
   exists channel transactionID,
     asString (channelData !! "channel_type") = Some channel /\ channel <> ""
     /\ asString (channelData !! "transaction_id") = Some transactionID
     /\ transactionID <> "")
  /\ (fst (fst (ValidatePaymentChannel d channelData)) = true <->
      (asString (channelData !! "channel_type") = Some "credit_card"
       /\ asString (channelData !! "transaction_id") = Some "fraud_cc_txn_123")
      \/ (asString (channelData !! "channel_type") = Some "bank_transfer"
          /\ asString (channelData !! "transaction_id") = Some "fraud_bank_txn_456")).
Proof.
  unfold ValidatePaymentChannel.
  destruct (asString (channelData !! "channel_type")) as [channel|];
    [|simpl; naive_solver].
  destruct (String.eqb_spec channel "") as [->|Hc]; simpl; [naive_solver|].
  destruct (asString (channelData !! "transaction_id")) as [tid|];
    [|simpl; naive_solver].
  destruct (String.eqb_spec tid "") as [->|Ht]; simpl; [naive_solver|].
  destruct (String.eqb_spec channel "credit_card") as [->|Hcc].
  { destruct (String.eqb_spec tid "fraud_cc_txn_123") as [->|Hcn]; simpl; naive_solver. }
  destruct (String.eqb_spec channel "bank_transfer") as [->|Hbt].
  { destruct (String.eqb_spec tid "fraud_bank_txn_456") as [->|Hbn]; simpl; naive_solver. }
  simpl. naive_solver.
Qed.

Lemma detector_ValidatePaymentChannel_verdict_witness :
  fst (fst (ValidatePaymentChannel {| repo := emptyRepo; rules := DefaultRules |}
              (<["channel_type" := VString "credit_card"]>
                 (<["transaction_id" := VString "fraud_cc_txn_123"]> ∅)))) = true.
Proof.
  apply (detector_ValidatePaymentChannel_verdict
           {| repo := emptyRepo; rules := DefaultRules |}
           (<["channel_type" := VString "credit_card"]>
              (<["transaction_id" := VString "fraud_cc_txn_123"]> ∅))).
  left. split; reflexivity.
Defined.

End detector_extra.

(* ===================================================================== *)
(** ** Properties of the in-memory repository                             *)
(* ===================================================================== *)

Module repository_extra.
Import repository repository_ops fixtures fixtures_more.

Lemma filter_sublist_mono {A : Type} (f g : A -> bool) (l : list A) :
  (forall x, f x = true -> g x = true) ->
  List.filter f l `sublist_of` List.filter g l.
Proof.
  intros Hfg. induction l as [|x l IH]; simpl; [constructor|].
  destruct (f x) eqn:Hf.
  - rewrite (Hfg x Hf). apply sublist_skip. exact IH.
  - destruct (g x); [apply sublist_cons|]; exact IH.
Qed.

Lemma filter_sublist_self {A : Type} (f : A -> bool) (l : list A) :
  List.filter f l `sublist_of` l.
Proof.
  induction l as [|x l IH]; simpl; [constructor|].
  destruct (f x); [apply sublist_skip|apply sublist_cons]; exact IH.
Qed.

Lemma InMemory_history_eq (mem : InMemoryFraudDataRepository) (customerID : string)
    (lookback : Duration) :
  GetTransactionHistory mem customerID lookback =
  (List.filter (recent mem lookback) (default [] (transactions mem !! customerID)), None).
Proof.
  simpl. unfold InMemory_GetTransactionHistory.
  destruct (transactions mem !! customerID); reflexivity.
Qed.

Lemma wrap64_small (z : Z) : (- 2 ^ 63 <= z < 2 ^ 63)%Z -> wrap64 z = z.
Proof. intros Hz. unfold wrap64. rewrite Z.mod_small; lia. Qed.

(** Negating a [Duration] other than [math.MinInt64] is exact. *)
Lemma Duration_neg_exact (d : Duration) :
  (- 2 ^ 63 < d < 2 ^ 63)%Z -> Duration_neg d = (- d)%Z.
Proof. intros Hd. unfold Duration_neg. apply wrap64_small. lia. Qed.

(** [GetTransactionHistory] returns, in the order they were stored, the
    customer's records stamped strictly after the cutoff
    [time.Now().Add(-lookback)], the negation being that of an [int64]: a
    record stamped exactly at the cutoff is left out. For a lookback other
    than [math.MinInt64] the cutoff is [now - lookback], and a longer
    lookback only adds records; at [math.MinInt64] the negation wraps, the
    cutoff lies [2^63] nanoseconds in the past and every record newer than
    that is returned. *)
Theorem GetTransactionHistory_window (mem : InMemoryFraudDataRepository)
    (customerID : string) (lookback longer : Duration) (txn : TransactionRecord) :
  (In txn (fst (GetTransactionHistory mem customerID lookback)) <->
   In txn (default [] (transactions mem !! customerID))
   /\ (now mem + Duration_neg lookback < Timestamp txn)%Z)
  /\ fst (GetTransactionHistory mem customerID lookback)
       `sublist_of` default [] (transactions mem !! customerID)
  /\ ((- 2 ^ 63 < lookback)%Z -> (lookback <= longer)%Z -> (longer < 2 ^ 63)%Z ->
      (In txn (fst (GetTransactionHistory mem customerID lookback)) <->
       In txn (default [] (transactions mem !! customerID))
       /\ (now mem - lookback < Timestamp txn)%Z)
      /\ fst (GetTransactionHistory mem customerID lookback)
           `sublist_of` fst (GetTransactionHistory mem customerID longer))
  /\ (In txn (fst (GetTransactionHistory mem customerID (- 2 ^ 63)%Z)) <->
      In txn (default [] (transactions mem !! customerID))
      /\ (now mem - 2 ^ 63 < Timestamp txn)%Z).
Proof.
  assert (Hin : forall lb,
            In txn (fst (GetTransactionHistory mem customerID lb)) <->
            In txn (default [] (transactions mem !! customerID))
            /\ (now mem + Duration_neg lb < Timestamp txn)%Z).
  { intros lb. rewrite InMemory_history_eq. cbn [fst]. rewrite filter_In.
    unfold recent, Time_After, Time_Add. rewrite Z.ltb_lt. reflexivity. }
  split; [apply Hin|]. split; [|split].
  - rewrite InMemory_history_eq. apply filter_sublist_self.
  - intros Hlo Hle Hhi. split.
    + rewrite Hin, Duration_neg_exact by lia. split; intros [? ?]; split; auto; lia.
    + rewrite !InMemory_history_eq. cbn [fst]. apply filter_sublist_mono. intros x.
      unfold recent, Time_After, Time_Add.
      rewrite !Duration_neg_exact by lia. rewrite !Z.ltb_lt. lia.
  - rewrite Hin. change (Duration_neg (- 2 ^ 63)%Z) with (- 2 ^ 63)%Z.
    split; intros [? ?]; split; auto; lia.
Qed.

Lemma GetTransactionHistory_window_witness :
  fst (GetTransactionHistory twoRecordsRepo "c1" 10%Z) = [txn_at 95%Z]
  /\ fst (GetTransactionHistory twoRecordsRepo "c1" 11%Z) = [txn_at 90%Z; txn_at 95%Z]
  /\ (In (txn_at 90%Z) (fst (GetTransactionHistory twoRecordsRepo "c1" 10%Z)) <->
      In (txn_at 90%Z) (default [] (transactions twoRecordsRepo !! "c1"))
      /\ (now twoRecordsRepo - 10 < repository.Timestamp (txn_at 90%Z))%Z)
  /\ fst (GetTransactionHistory twoRecordsRepo "c1" 10%Z)
       `sublist_of` fst (GetTransactionHistory twoRecordsRepo "c1" 11%Z).
Proof.
  split; [reflexivity|]. split; [reflexivity|].
  refine (proj1 (proj2 (proj2 (GetTransactionHistory_window twoRecordsRepo "c1"
                                 10%Z 11%Z (txn_at 90%Z)))) _ _ _); lia.
Defined.

(** [AddTransaction] appends to the customer's history: afterwards
    [GetTransactionHistory] for that customer, read at the same clock,
    returns what it returned before followed by the new record if that is
    stamped after the cutoff [time.Now().Add(-lookback)] (the negation is
    that of an [int64], so at [math.MinInt64] the cutoff lies in the past);
    the history of every other customer is unchanged, and so is the IP
    data. *)
Theorem AddTransaction_then_history (mem : InMemoryFraudDataRepository)
    (customerID other : string) (txn : TransactionRecord) (lookback : Duration) :
  GetTransactionHistory (AddTransaction mem customerID txn) customerID lookback =
    ((fst (GetTransactionHistory mem customerID lookback)
        ++ (if recent mem lookback txn then [txn] else []))%list, None)
  /\ (other <> customerID ->
      GetTransactionHistory (AddTransaction mem customerID txn) other lookback =
      GetTransactionHistory mem other lookback)
  /\ (forall ipAddress,
        GetIPData (AddTransaction mem customerID txn) ipAddress = GetIPData mem ipAddress).
Proof.
  split; [|split].
  - rewrite !InMemory_history_eq. cbn [fst]. unfold recent, AddTransaction.
    cbn [transactions now]. rewrite lookup_insert_eq.
    change (default [] (Some ?l)) with l.
    rewrite List.filter_app. reflexivity.
  - intros Hne. rewrite !InMemory_history_eq. unfold AddTransaction. cbn [transactions].
    rewrite lookup_insert_ne by congruence. reflexivity.
  - intros ip. reflexivity.
Qed.

Lemma AddTransaction_then_history_witness :
  GetTransactionHistory (AddTransaction twoRecordsRepo "c1" (txn_at 99%Z)) "c1" 10%Z
    = ([txn_at 95%Z; txn_at 99%Z], None)
  /\ GetTransactionHistory (AddTransaction twoRecordsRepo "c1" (txn_at 80%Z)) "c1" 10%Z
     = ([txn_at 95%Z], None)
  /\ GetTransactionHistory (AddTransaction twoRecordsRepo "c1" (txn_at 80%Z)) "c1"
       (- 2 ^ 63)%Z
     = ([txn_at 90%Z; txn_at 95%Z; txn_at 80%Z], None)
  /\ GetTransactionHistory (AddTransaction twoRecordsRepo "c1" (txn_at 99%Z)) "c2" 10%Z
     = GetTransactionHistory twoRecordsRepo "c2" 10%Z.
Proof.
  split; [|split; [|split]].
  - exact (proj1 (AddTransaction_then_history twoRecordsRepo "c1" "c2" (txn_at 99%Z) 10%Z)).
  - exact (proj1 (AddTransaction_then_history twoRecordsRepo "c1" "c2" (txn_at 80%Z) 10%Z)).
  - exact (proj1 (AddTransaction_then_history twoRecordsRepo "c1" "c2" (txn_at 80%Z)
                    (- 2 ^ 63)%Z)).
  - refine (proj1 (proj2 (AddTransaction_then_history twoRecordsRepo "c1" "c2"
                            (txn_at 99%Z) 10%Z)) _).
    discriminate.
Defined.



End repository_extra.

(* ===================================================================== *)
(** ** Further properties of the service                                  *)
(* ===================================================================== *)

Module services_more_facts.
Import services spec api_spec services_facts.

Lemma TrimRight_slash_append_slash (s : string) :
  TrimRight_slash (s ++ "/") = TrimRight_slash s.
Proof.
  induction s as [|c s IH]; [reflexivity|].
  change (String c s ++ "/") with (String c (s ++ "/")).
  cbn [TrimRight_slash]. rewrite IH. reflexivity.
Qed.

Lemma TrimRight_slash_no_trailing (s t : string) : TrimRight_slash s <> t ++ "/".
Proof.
  revert t. induction s as [|c s IH]; intros t.
  - destruct t; discriminate.
  - cbn [TrimRight_slash].
    destruct (String.eqb_spec (TrimRight_slash s) "") as [Hr|Hr]; cbn [andb].
    + destruct (Ascii.eqb_spec c "/") as [Hc|Hc]; [destruct t; discriminate|].
      rewrite Hr. destruct t as [|c' t]; [intros [= ?]; contradiction|].
      intros [= _ Ht]. destruct t; discriminate.
    + destruct t as [|c' t].
      * intros [= _ Ht]. contradiction.
      * intros [= _ Ht]. exact (IH t Ht).
Qed.

Lemma append_nonempty_l (a b : string) : a <> "" -> a ++ b <> "".
Proof. destruct a; [contradiction|discriminate]. Qed.

Section Service.
Context `{GoLib} {D : Type}.
Variable s : FraudService D.

(** The successful fetch: a single request answered with status 200 and a
    body that decodes. *)
Lemma GetTransactionDetailsByReference_Ok_inv (net net' : Network) (reference : string)
    (tx : TransactionResponse) :
  GetTransactionDetailsByReference s net reference = (Ok tx, net') ->
  net' = afterRequest net (requestURL s reference)
  /\ transactionServiceURL s <> ""
  /\ http_NewRequest (requestURL s reference) = None
  /\ exists resp, transport net (requestURL s reference) = Ok resp
                  /\ StatusCode resp = 200%Z /\ json_Decode (Body resp) = Ok tx.
Proof.
  unfold GetTransactionDetailsByReference, afterRequest, http_Do, requestURL.
  destruct (String.eqb_spec (transactionServiceURL s) "") as [He|He]; [discriminate|].
  cbv zeta. destruct (http_NewRequest _) as [err|]; [discriminate|].
  destruct (transport net _) as [resp|err] eqn:Ht; [|discriminate].
  destruct (Z.eqb_spec (StatusCode resp) 404); [discriminate|].
  destruct (Z.eqb_spec (StatusCode resp) 200) as [H200|H200]; cbn [negb]; [|discriminate].
  destruct (json_Decode (Body resp)) as [tx'|err] eqn:Hd; [|discriminate].
  intros [= <- <-]. repeat split; auto. exists resp. auto.
Qed.

(** Every call sends at most one request and leaves the transport as it
    is. *)
Lemma GetTransactionDetailsByReference_network (net : Network) (reference : string) :
  snd (GetTransactionDetailsByReference s net reference) = net
  \/ snd (GetTransactionDetailsByReference s net reference)
     = afterRequest net (requestURL s reference).
Proof.
  unfold GetTransactionDetailsByReference, afterRequest, http_Do, requestURL.
  destruct (String.eqb (transactionServiceURL s) ""); [auto|].
  cbv zeta. destruct (http_NewRequest _) as [err|]; [auto|].
  destruct (transport net _) as [resp|err]; [|auto].
  destruct (StatusCode resp =? 404)%Z; [auto|].
  destruct (negb (StatusCode resp =? 200)%Z); [auto|].
  destruct (json_Decode (Body resp)); auto.
Qed.

(** The fetch once the request has been answered with a status that is
    not 200. *)
Lemma GetTransactionDetailsByReference_status (net : Network) (reference : string)
    (resp : Response) :
  transactionServiceURL s <> "" ->
  http_NewRequest (requestURL s reference) = None ->
  transport net (requestURL s reference) = Ok resp ->
  StatusCode resp <> 200%Z ->
  GetTransactionDetailsByReference s net reference =
    (Err (errorString
            (if (StatusCode resp =? 404)%Z
             then "transaction with reference " ++ reference ++ " not found"
             else "transaction service returned status " ++ fmt_d (StatusCode resp)
                    ++ ": " ++ Body resp)),
     afterRequest net (requestURL s reference)).
Proof.
  intros Hu Hn Ht Hs.
  unfold GetTransactionDetailsByReference, afterRequest, http_Do.
  fold (requestURL s reference).
  apply String.eqb_neq in Hu. rewrite Hu. cbv zeta. rewrite Hn, Ht.
  destruct (StatusCode resp =? 404)%Z; [reflexivity|].
  apply Z.eqb_neq in Hs. rewrite Hs. reflexivity.
Qed.

(** The validator once the link has passed its checks and the fetch has
    failed. *)
Lemma ValidatePaymentLink_fetch_failed (net net' : Network) (linkUrl : string) (u : URL)
    (merchantID amount : Z) (e : error) :
  url_Parse linkUrl = Ok u ->
  parametersPresent (URL_Query u) ->
  strconv_Atoi (Values_Get (URL_Query u) "merchant_id") = Ok merchantID ->
  strconv_ParseInt (Values_Get (URL_Query u) "amount") = Ok amount ->
  GetTransactionDetailsByReference s net (Values_Get (URL_Query u) "ref") = (Err e, net') ->
  ValidatePaymentLink s net linkUrl =
    ((true,
      if Contains (Error e) "not found"
      then "Transaction reference " ++ Values_Get (URL_Query u) "ref"
             ++ " not found for payment link"
      else "Error fetching original transaction details: " ++ Error e, None), net').
Proof.
  intros Hu Hp Hm Ha Hf. unfold ValidatePaymentLink.
  rewrite Hu. cbv zeta. rewrite (parametersPresent_test _ Hp), Hm, Ha, Hf.
  destruct (Contains (Error e) "not found"); reflexivity.
Qed.

(** The validator sends at most one request. *)
Lemma ValidatePaymentLink_network (net : Network) (linkUrl : string) :
  snd (ValidatePaymentLink s net linkUrl) = net
  \/ exists u, url_Parse linkUrl = Ok u
       /\ snd (ValidatePaymentLink s net linkUrl)
          = afterRequest net (requestURL s (Values_Get (URL_Query u) "ref")).
Proof.
  unfold ValidatePaymentLink.
  destruct (url_Parse linkUrl) as [u|e0]; cbv zeta; [|auto].
  destruct (_ || _); [auto|].
  destruct (strconv_Atoi _) as [merchantID|e1]; [|auto].
  destruct (strconv_ParseInt _) as [amount|e2]; [|auto].
  pose proof (GetTransactionDetailsByReference_network net
                (Values_Get (URL_Query u) "ref")) as Hn.
  destruct (GetTransactionDetailsByReference s net _) as [r net'].
  cbn [snd] in Hn.
  assert (Hgoal : net' = net \/ exists u0, Ok u = Ok u0 /\
            net' = afterRequest net (requestURL s (Values_Get (URL_Query u0) "ref"))).
  { destruct Hn as [-> | ->]; [auto|]. right. exists u. auto. }
  destruct r as [originalTx|e3].
  - destruct (negb (MerchantID originalTx =? merchantID)%Z); [exact Hgoal|].
    destruct (negb (Amount originalTx =? amount)%Z); [exact Hgoal|].
    destruct (negb (String.eqb (Currency originalTx) _)); exact Hgoal.
  - destruct (Contains (Error e3) "not found"); exact Hgoal.
Qed.

(** The service's link check has a nil error too. *)
Lemma TrackPaymentLink_nil_error (net : Network) (linkData : gmap string value) :
  snd (fst (TrackPaymentLink s net linkData)) = None.
Proof.
  unfold TrackPaymentLink.
  destruct (asString (linkData !! "url")) as [urlStr|]; [|reflexivity].
  destruct (String.eqb urlStr ""); [reflexivity|].
  apply ValidatePaymentLink_nil_error.
Qed.

End Service.

End services_more_facts.

Module services_extra.
Import services spec api_spec fixtures fixtures_more services_facts services_more_facts.

Section Service.
Context `{GoLib} {D : Type}.

(** A service built by [NewFraudService] always has a transaction
    service URL: the one given if it is not empty, otherwise the value of
    TRANSACTION_SERVICE_URL if that is not empty, otherwise
    "http://transaction-service:7000". *)
Theorem NewFraudService_url_never_empty (det : D) (url : string) :
  transactionServiceURL (NewFraudService det url) <> ""
  /\ (url <> "" -> transactionServiceURL (NewFraudService det url) = url)
  /\ (url = "" -> os_Getenv "TRANSACTION_SERVICE_URL" <> "" ->
      transactionServiceURL (NewFraudService det url) = os_Getenv "TRANSACTION_SERVICE_URL")
  /\ (url = "" -> os_Getenv "TRANSACTION_SERVICE_URL" = "" ->
      transactionServiceURL (NewFraudService det url) = "http://transaction-service:7000")
  /\ detector (NewFraudService det url) = det.
Proof.
  unfold NewFraudService. cbn [transactionServiceURL detector].
  destruct (String.eqb_spec url "") as [->|Hu].
  - destruct (String.eqb_spec (os_Getenv "TRANSACTION_SERVICE_URL") "") as [He|He].
    + repeat split; try discriminate; try contradiction; auto.
    + repeat split; try congruence; try contradiction; auto.
  - repeat split; try congruence; try contradiction; auto.
Qed.

(** [GetTransactionDetailsByReference] sends at most one request, a GET
    of the base URL without its trailing slashes followed by
    "/transactions/" and the reference; it returns a transaction only if that
    request was sent and answered with status 200 and a body that decodes to
    the transaction; and with an empty base URL it fails without sending
    anything. *)
Theorem GetTransactionDetailsByReference_request (s : FraudService D) (net : Network)
    (reference : string) :
  (snd (GetTransactionDetailsByReference s net reference) = net
   \/ snd (GetTransactionDetailsByReference s net reference)
      = {| transport := transport net;
           requests := (requests net ++ [requestURL s reference])%list |})
  /\ (forall tx, fst (GetTransactionDetailsByReference s net reference) = Ok tx ->
      requests (snd (GetTransactionDetailsByReference s net reference))
      = (requests net ++ [requestURL s reference])%list
      /\ exists resp, transport net (requestURL s reference) = Ok resp
                      /\ StatusCode resp = 200%Z /\ json_Decode (Body resp) = Ok tx)
  /\ (transactionServiceURL s = "" ->
      GetTransactionDetailsByReference s net reference =
      (Err (errorString "transaction service URL not configured"), net)).
Proof.
  split; [apply GetTransactionDetailsByReference_network|]. split.
  - intros tx Hf.
    destruct (GetTransactionDetailsByReference s net reference) as [r net'] eqn:Hg.
    cbn [fst snd] in *. subst r.
    destruct (GetTransactionDetailsByReference_Ok_inv s net net' reference tx Hg)
      as (-> & _ & _ & Hresp).
    split; [reflexivity|exact Hresp].
  - intros Hu. unfold GetTransactionDetailsByReference. rewrite Hu. reflexivity.
Qed.

(** Trailing slashes of the configured base URL make no difference: the
    requested URL never has a slash before "/transactions/", and a service
    configured with one more trailing slash behaves the same. *)
Theorem GetTransactionDetailsByReference_trailing_slash (det : D) (base : string)
    (net : Network) (reference : string) :
  base <> "" ->
  GetTransactionDetailsByReference
    {| detector := det; transactionServiceURL := base ++ "/" |} net reference =
  GetTransactionDetailsByReference
    {| detector := det; transactionServiceURL := base |} net reference
  /\ forall t, TrimRight_slash base <> t ++ "/".
Proof.
  intros Hb. split; [|intros t; apply TrimRight_slash_no_trailing].
  unfold GetTransactionDetailsByReference. cbn [transactionServiceURL].
  rewrite TrimRight_slash_append_slash.
  apply String.eqb_neq in Hb. rewrite Hb.
  destruct (String.eqb_spec (base ++ "/") "") as [He|He]; [|reflexivity].
  destruct base; discriminate.
Qed.

(** A link is declared not suspicious only if the transaction service was
    asked once, answered with status 200 and a transaction whose merchant id,
    amount and currency are exactly those of the link. *)
Theorem ValidatePaymentLink_legitimate_only_if_equal (s : FraudService D) (net : Network)
    (linkUrl : string) :
  fst (fst (fst (ValidatePaymentLink s net linkUrl))) = false ->
  exists u tx resp,
    url_Parse linkUrl = Ok u
    /\ transport net (requestURL s (Values_Get (URL_Query u) "ref")) = Ok resp
    /\ StatusCode resp = 200%Z
    /\ json_Decode (Body resp) = Ok tx
    /\ strconv_Atoi (Values_Get (URL_Query u) "merchant_id") = Ok (MerchantID tx)
    /\ strconv_ParseInt (Values_Get (URL_Query u) "amount") = Ok (Amount tx)
    /\ Values_Get (URL_Query u) "currency" = Currency tx
    /\ ValidatePaymentLink s net linkUrl =
       ((false, "Payment link is legitimate", None),
        {| transport := transport net;
           requests := (requests net
                          ++ [requestURL s (Values_Get (URL_Query u) "ref")])%list |}).
Proof.
  intros Hans.
  destruct (ValidatePaymentLink_not_suspicious_inv s net linkUrl Hans)
    as (u & merchantID & amount & tx & Hu & Hp & Hm & Ha & Hf).
  destruct (GetTransactionDetailsByReference s net (Values_Get (URL_Query u) "ref"))
    as [r net'] eqn:Hg.
  cbn [fst] in Hf. subst r.
  assert (Hpres : parametersPresent (URL_Query u)).
  { unfold parametersPresent, parameterMissing in *.
    repeat split; intros Hx; apply Hp; auto. }
  pose proof (ValidatePaymentLink_fetched s net net' linkUrl u merchantID amount tx
                Hu Hpres Hm Ha Hg) as Hv.
  rewrite Hv in Hans. rewrite Hv.
  destruct (GetTransactionDetailsByReference_Ok_inv s net net' _ tx Hg)
    as (-> & _ & _ & resp & Ht & H200 & Hd).
  destruct (Z.eqb_spec (MerchantID tx) merchantID) as [Em|Em]; cbn [negb] in *;
    [|discriminate].
  destruct (Z.eqb_spec (Amount tx) amount) as [Ea|Ea]; cbn [negb] in *; [|discriminate].
  destruct (String.eqb_spec (Currency tx) (Values_Get (URL_Query u) "currency"))
    as [Ec|Ec]; cbn [negb] in *; [|discriminate].
  subst merchantID amount. exists u, tx, resp. repeat split; auto.
Qed.

(** When the transaction service answers 404 for the reference of a
    well-formed link, the validator reports the link as suspicious with the
    reason "Transaction reference R not found for payment link", having sent
    that one request. *)
Theorem ValidatePaymentLink_reference_not_found (s : FraudService D) (net : Network)
    (linkUrl : string) (u : URL) (merchantID amount : Z) (resp : Response) :
  url_Parse linkUrl = Ok u ->
  parametersPresent (URL_Query u) ->
  strconv_Atoi (Values_Get (URL_Query u) "merchant_id") = Ok merchantID ->
  strconv_ParseInt (Values_Get (URL_Query u) "amount") = Ok amount ->
  transactionServiceURL s <> "" ->
  http_NewRequest (requestURL s (Values_Get (URL_Query u) "ref")) = None ->
  transport net (requestURL s (Values_Get (URL_Query u) "ref")) = Ok resp ->
  StatusCode resp = 404%Z ->
  ValidatePaymentLink s net linkUrl =
    ((true, "Transaction reference " ++ Values_Get (URL_Query u) "ref"
              ++ " not found for payment link", None),
     afterRequest net (requestURL s (Values_Get (URL_Query u) "ref"))).
Proof.
  intros Hu Hp Hm Ha Hs Hn Ht H404.
  assert (Hne : StatusCode resp <> 200%Z) by lia.
  pose proof (GetTransactionDetailsByReference_status s net _ resp Hs Hn Ht Hne) as Hg.
  rewrite H404 in Hg. cbn [Z.eqb Pos.eqb] in Hg.
  rewrite (ValidatePaymentLink_fetch_failed s net _ linkUrl u merchantID amount _
             Hu Hp Hm Ha Hg).
  cbn [Error].
  rewrite (Contains_append_r "transaction with reference " _ _
             (Contains_append_r (Values_Get (URL_Query u) "ref") " not found" "not found"
                eq_refl)).
  reflexivity.
Qed.

(** The validator recognises a missing reference by the words "not found"
    in the error text, so any other failed fetch whose text has these words
    is reported the same way: a response with a status other than 200 and 404
    whose body contains "not found" gives the reason "Transaction reference R
    not found for payment link", not the reason for a fetch error. *)
Theorem ValidatePaymentLink_not_found_by_text (s : FraudService D) (net : Network)
    (linkUrl : string) (u : URL) (merchantID amount : Z) (resp : Response) :
  url_Parse linkUrl = Ok u ->
  parametersPresent (URL_Query u) ->
  strconv_Atoi (Values_Get (URL_Query u) "merchant_id") = Ok merchantID ->
  strconv_ParseInt (Values_Get (URL_Query u) "amount") = Ok amount ->
  transactionServiceURL s <> "" ->
  http_NewRequest (requestURL s (Values_Get (URL_Query u) "ref")) = None ->
  transport net (requestURL s (Values_Get (URL_Query u) "ref")) = Ok resp ->
  StatusCode resp <> 200%Z -> StatusCode resp <> 404%Z ->
  Contains (Body resp) "not found" = true ->
  fst (ValidatePaymentLink s net linkUrl) =
    (true, "Transaction reference " ++ Values_Get (URL_Query u) "ref"
             ++ " not found for payment link", None).
Proof.
  intros Hu Hp Hm Ha Hs Hn Ht H200 H404 Hbody.
  pose proof (GetTransactionDetailsByReference_status s net _ resp Hs Hn Ht H200) as Hg.
  apply Z.eqb_neq in H404. rewrite H404 in Hg.
  rewrite (ValidatePaymentLink_fetch_failed s net _ linkUrl u merchantID amount _
             Hu Hp Hm Ha Hg).
  cbn [Error fst].
  rewrite (Contains_append_r _ _ _
             (Contains_append_r _ _ _ (Contains_append_r _ _ _ Hbody))).
  reflexivity.
Qed.

(** The validator asks the transaction service only after the link has
    passed every local check: it sends no request when the URL does not
    parse or the merchant id or the amount is not an integer, and at most one
    request otherwise, never changing the transport. *)
Theorem ValidatePaymentLink_requests (s : FraudService D) (net : Network)
    (linkUrl : string) :
  (forall e, url_Parse linkUrl = Err e ->
     ValidatePaymentLink s net linkUrl
     = ((true, "Invalid payment link URL format", None), net))
  /\ (forall u e, url_Parse linkUrl = Ok u -> parametersPresent (URL_Query u) ->
        strconv_Atoi (Values_Get (URL_Query u) "merchant_id") = Err e ->
        ValidatePaymentLink s net linkUrl
        = ((true, "Invalid merchant_id format in payment link", None), net))
  /\ (forall u merchantID e, url_Parse linkUrl = Ok u -> parametersPresent (URL_Query u) ->
        strconv_Atoi (Values_Get (URL_Query u) "merchant_id") = Ok merchantID ->
        strconv_ParseInt (Values_Get (URL_Query u) "amount") = Err e ->
        ValidatePaymentLink s net linkUrl
        = ((true, "Invalid amount format in payment link", None), net))
  /\ transport (snd (ValidatePaymentLink s net linkUrl)) = transport net
  /\ (requests (snd (ValidatePaymentLink s net linkUrl)) = requests net
      \/ exists url, requests (snd (ValidatePaymentLink s net linkUrl))
                     = (requests net ++ [url])%list).
Proof.
  split; [|split; [|split; [|split]]].
  - intros e He. unfold ValidatePaymentLink. rewrite He. reflexivity.
  - intros u e Hu Hp Hm. unfold ValidatePaymentLink. rewrite Hu. cbv zeta.
    rewrite (parametersPresent_test _ Hp), Hm. reflexivity.
  - intros u m e Hu Hp Hm Ha. unfold ValidatePaymentLink. rewrite Hu. cbv zeta.
    rewrite (parametersPresent_test _ Hp), Hm, Ha. reflexivity.
  - destruct (ValidatePaymentLink_network s net linkUrl) as [-> | (u & _ & ->)];
      reflexivity.
  - destruct (ValidatePaymentLink_network s net linkUrl) as [-> | (u & _ & ->)];
      [left; reflexivity|right; eexists; reflexivity].
Qed.

End Service.

Lemma GetTransactionDetailsByReference_request_witness :
  exists resp,
    transport oneTransactionNet (requestURL exampleService "tx1") = Ok resp
    /\ StatusCode resp = 200%Z /\ json_Decode (Body resp) = Ok tx1.
Proof.
  refine (proj2 (proj1 (proj2 (GetTransactionDetailsByReference_request
            exampleService oneTransactionNet "tx1")) tx1 eq_refl)).
Defined.

Lemma GetTransactionDetailsByReference_trailing_slash_witness :
  GetTransactionDetailsByReference
    {| detector := tt; transactionServiceURL := "http://transaction-service:7000/" |}
    oneTransactionNet "tx1" =
  GetTransactionDetailsByReference
    {| detector := tt; transactionServiceURL := "http://transaction-service:7000" |}
    oneTransactionNet "tx1".
Proof.
  refine (proj1 (GetTransactionDetailsByReference_trailing_slash tt
            "http://transaction-service:7000" oneTransactionNet "tx1" _)).
  discriminate.
Defined.

Lemma NewFraudService_url_never_empty_witness :
  transactionServiceURL (NewFraudService tt "") = "http://transaction-service:7000".
Proof.
  refine (proj1 (proj2 (proj2 (proj2 (NewFraudService_url_never_empty tt "")))) eq_refl
            eq_refl).
Defined.

Lemma ValidatePaymentLink_legitimate_only_if_equal_witness :
  exists u tx resp,
    url_Parse link_tx1 = Ok u
    /\ transport oneTransactionNet (requestURL exampleService (Values_Get (URL_Query u) "ref"))
       = Ok resp
    /\ StatusCode resp = 200%Z
    /\ json_Decode (Body resp) = Ok tx
    /\ strconv_Atoi (Values_Get (URL_Query u) "merchant_id") = Ok (MerchantID tx)
    /\ strconv_ParseInt (Values_Get (URL_Query u) "amount") = Ok (Amount tx)
    /\ Values_Get (URL_Query u) "currency" = Currency tx
    /\ ValidatePaymentLink exampleService oneTransactionNet link_tx1 =
       ((false, "Payment link is legitimate", None),
        {| transport := transport oneTransactionNet;
           requests := (requests oneTransactionNet
                          ++ [requestURL exampleService
                                (Values_Get (URL_Query u) "ref")])%list |}).
Proof.
  apply (ValidatePaymentLink_legitimate_only_if_equal exampleService oneTransactionNet
           link_tx1).
  reflexivity.
Defined.

Lemma ValidatePaymentLink_reference_not_found_witness :
  fst (ValidatePaymentLink exampleService oneTransactionNet
         "https://pay.example.com/pay?ref=tx2&merchant_id=5&amount=1000&currency=NGN")
  = (true, "Transaction reference tx2 not found for payment link", None).
Proof.
  refine (f_equal fst (ValidatePaymentLink_reference_not_found exampleService
            oneTransactionNet
            "https://pay.example.com/pay?ref=tx2&merchant_id=5&amount=1000&currency=NGN"
            "ref=tx2&merchant_id=5&amount=1000&currency=NGN" 5%Z 1000%Z
            {| StatusCode := 404%Z; Body := "" |}
            eq_refl _ eq_refl eq_refl _ eq_refl eq_refl eq_refl)).
  - repeat split; vm_compute; discriminate.
  - vm_compute. discriminate.
Defined.

Lemma ValidatePaymentLink_not_found_by_text_witness :
  fst (ValidatePaymentLink exampleService brokenNet link_tx1)
  = (true, "Transaction reference tx1 not found for payment link", None).
Proof.
  refine (ValidatePaymentLink_not_found_by_text exampleService brokenNet link_tx1
            "ref=tx1&merchant_id=5&amount=1000&currency=NGN" 5%Z 1000%Z
            {| StatusCode := 500%Z; Body := "upstream not found" |}
            eq_refl _ eq_refl eq_refl _ eq_refl eq_refl _ _ eq_refl).
  - repeat split; vm_compute; discriminate.
  - vm_compute. discriminate.
  - simpl. lia.
  - simpl. lia.
Defined.

Lemma ValidatePaymentLink_requests_witness :
  ValidatePaymentLink exampleService downNet
    "https://pay.example.com/pay?ref=tx1&merchant_id=5&amount=ten&currency=NGN"
  = ((true, "Invalid amount format in payment link", None), downNet).
Proof.
  refine (proj1 (proj2 (proj2 (ValidatePaymentLink_requests exampleService downNet
            "https://pay.example.com/pay?ref=tx1&merchant_id=5&amount=ten&currency=NGN")))
            "ref=tx1&merchant_id=5&amount=ten&currency=NGN" 5%Z
            (errorString "invalid syntax") eq_refl _ eq_refl eq_refl).
  repeat split; vm_compute; discriminate.
Defined.

End services_extra.

(* ===================================================================== *)
(** ** Properties of the handlers and of the configuration                *)
(* ===================================================================== *)

Module handlers_facts.
Import repository fraud services spec api_spec detector_ops handlers
  services_facts services_more_facts detector_more_facts.

(** Whether a body passes the checks of check-transaction can be
    decided. *)
Lemma validTransaction_dec (transactionData : gmap string value) :
  validTransaction transactionData \/ ~ validTransaction transactionData.
Proof.
  unfold validTransaction.
  destruct (asString (transactionData !! "customer_id")) as [c|] eqn:Hc;
    [|right; intros (? & ? & ? & [=] & _)].
  destruct (String.eqb_spec c "") as [->|Hcn];
    [right; intros (? & ? & ? & [= <-] & Hn & _); contradiction|].
  destruct (asFloat (transactionData !! "amount")) as [a|] eqn:Ha;
    [|right; intros (? & ? & ? & _ & _ & [=] & _)].
  destruct (PrimFloat.leb a 0) eqn:Hle;
    [right; intros (? & ? & ? & _ & _ & [= <-] & Hn & _); congruence|].
  destruct (asString (transactionData !! "currency")) as [cur|] eqn:Hcur;
    [|right; intros (? & ? & ? & _ & _ & _ & _ & [=] & _)].
  destruct (String.eqb_spec cur "") as [->|Hcurn];
    [right; intros (? & ? & ? & _ & _ & _ & _ & [= <-] & Hn); contradiction|].
  left. exists c, a, cur. auto 10.
Qed.

Section Handlers.
Context {D : Type} `{FraudDetector.t D} `{GoLib}.
Variable h : FraudAPIHandler D.

Lemma CheckTransaction_valid (transactionData : gmap string value) :
  validTransaction transactionData ->
  handlers.CheckTransaction h (Some transactionData) =
  match FraudDetector.CheckTransaction (detector (svc h)) transactionData with
  | (_, Some err) => NewError StatusInternalServerError (Error err)
  | (decision, None) => JSON_decision decision
  end.
Proof.
  intros (c & a & cur & Hc & Hcn & Ha & Hle & Hcur & Hcurn).
  unfold handlers.CheckTransaction. rewrite Hc, Ha, Hle, Hcur.
  apply String.eqb_neq in Hcn, Hcurn. rewrite Hcn, Hcurn.
  unfold service_ops.CheckTransaction.
  destruct (FraudDetector.CheckTransaction (detector (svc h)) transactionData)
    as [dec [e|]]; reflexivity.
Qed.

Lemma CheckTransaction_invalid (transactionData : gmap string value) :
  ~ validTransaction transactionData ->
  exists message,
    handlers.CheckTransaction h (Some transactionData) = NewError StatusBadRequest message.
Proof.
  intros Hn. unfold handlers.CheckTransaction.
  destruct (asString (transactionData !! "customer_id")) as [c|] eqn:Hc; [|eauto].
  destruct (String.eqb_spec c "") as [->|Hcn]; [eauto|].
  destruct (asFloat (transactionData !! "amount")) as [a|] eqn:Ha; [|eauto].
  destruct (PrimFloat.leb a 0) eqn:Hle; [eauto|].
  destruct (asString (transactionData !! "currency")) as [cur|] eqn:Hcur; [|eauto].
  destruct (String.eqb_spec cur "") as [->|Hcurn]; [eauto|].
  exfalso. apply Hn. exists c, a, cur. auto 10.
Qed.

(** The error of a failed fetch says "transaction with reference R not
    found" only after a response with status 404. *)
Lemma GetTransactionDetailsByReference_not_found_inv (net net' : Network)
    (reference : string) (e : error) :
  GetTransactionDetailsByReference (svc h) net reference = (Err e, net') ->
  Error e = "transaction with reference " ++ reference ++ " not found" ->
  exists resp, transport net (requestURL (svc h) reference) = Ok resp
               /\ StatusCode resp = 404%Z.
Proof.
  unfold GetTransactionDetailsByReference, http_Do. fold (requestURL (svc h) reference).
  destruct (String.eqb (transactionServiceURL (svc h)) "").
  { intros [= <- _]. simpl. discriminate. }
  cbv zeta. destruct (http_NewRequest _) as [err|].
  { intros [= <- _]. simpl. discriminate. }
  destruct (transport net _) as [resp|err] eqn:Ht.
  2:{ intros [= <- _]. simpl. discriminate. }
  destruct (Z.eqb_spec (StatusCode resp) 404) as [H404|H404].
  { intros _ _. exists resp. auto. }
  destruct (negb (StatusCode resp =? 200)%Z).
  { intros [= <- _]. simpl. discriminate. }
  destruct (json_Decode (Body resp)) as [tx|err]; [discriminate|].
  intros [= <- _]. simpl. discriminate.
Qed.

Lemma ValidatePaymentChannel_valid (channelData : gmap string value) :
  validChannel channelData ->
  handlers.ValidatePaymentChannel h (Some channelData) =
  match FraudDetector.ValidatePaymentChannel (detector (svc h)) channelData with
  | (_, _, Some err) => NewError StatusInternalServerError (Error err)
  | (isValid, reason, None) => JSON_map (verdictMap "is_valid" isValid reason)
  end.
Proof.
  intros (c & t & Hc & Hcn & Ht & Htn).
  unfold handlers.ValidatePaymentChannel. rewrite Hc, Ht.
  apply String.eqb_neq in Hcn, Htn. rewrite Hcn, Htn.
  unfold service_ops.ValidatePaymentChannel.
  destruct (FraudDetector.ValidatePaymentChannel (detector (svc h)) channelData)
    as [[b r] [e|]]; reflexivity.
Qed.

Lemma ValidatePaymentChannel_invalid (channelData : gmap string value) :
  ~ validChannel channelData ->
  exists message,
    handlers.ValidatePaymentChannel h (Some channelData)
    = NewError StatusBadRequest message.
Proof.
  intros Hn. unfold handlers.ValidatePaymentChannel.
  destruct (asString (channelData !! "channel_type")) as [c|] eqn:Hc; [|eauto].
  destruct (String.eqb_spec c "") as [->|Hcn]; [eauto|].
  destruct (asString (channelData !! "transaction_id")) as [t|] eqn:Ht; [|eauto].
  destruct (String.eqb_spec t "") as [->|Htn]; [eauto|].
  exfalso. apply Hn. exists c, t. auto.
Qed.

End Handlers.

Lemma validChannel_dec (channelData : gmap string value) :
  validChannel channelData \/ ~ validChannel channelData.
Proof.
  unfold validChannel.
  destruct (asString (channelData !! "channel_type")) as [c|] eqn:Hc;
    [|right; intros (? & ? & [=] & _)].
  destruct (String.eqb_spec c "") as [->|Hcn];
    [right; intros (? & ? & [= <-] & Hn & _); contradiction|].
  destruct (asString (channelData !! "transaction_id")) as [t|] eqn:Ht;
    [|right; intros (? & ? & _ & _ & [=] & _)].
  destruct (String.eqb_spec t "") as [->|Htn];
    [right; intros (? & ? & _ & _ & [= <-] & Hn); contradiction|].
  left. exists c, t. auto.
Qed.

(** After the handler's checks the detector's own checks cannot fail. *)
Lemma detector_ValidatePaymentChannel_valid {R : Type} (d : RuleBasedFraudDetector R)
    (channelData : gmap string value) :
  validChannel channelData ->
  snd (detector_ops.ValidatePaymentChannel d channelData) = None.
Proof.
  intros (c & t & Hc & Hcn & Ht & Htn).
  unfold detector_ops.ValidatePaymentChannel. rewrite Hc, Ht.
  apply String.eqb_neq in Hcn, Htn. rewrite Hcn, Htn.
  destruct (String.eqb c "credit_card").
  { destruct (String.eqb t "fraud_cc_txn_123"); reflexivity. }
  destruct (String.eqb c "bank_transfer").
  { destruct (String.eqb t "fraud_bank_txn_456"); reflexivity. }
  reflexivity.
Qed.

End handlers_facts.

Module handlers_extra.
Import repository fraud services spec api_spec detector_ops handlers fixtures fixtures_more
  services_facts services_more_facts detector_more_facts handlers_facts.

Section Handlers.
Context `{GoLib}.

(** The check-transaction handler answers 400 without consulting the
    detector when the body did not parse or lacks a non-empty string
    [customer_id], a positive number [amount] or a non-empty string
    [currency]; on a valid body it answers with the detector's decision, or
    with 500 and the text of the detector's error. *)
Theorem handler_CheckTransaction_validation {D : Type} `{FraudDetector.t D}
    (h : FraudAPIHandler D) (transactionData : gmap string value) :
  (exists message, handlers.CheckTransaction h None = NewError StatusBadRequest message)
  /\ (~ validTransaction transactionData ->
      exists message,
        handlers.CheckTransaction h (Some transactionData)
        = NewError StatusBadRequest message)
  /\ (validTransaction transactionData ->
      handlers.CheckTransaction h (Some transactionData) =
      match FraudDetector.CheckTransaction (detector (svc h)) transactionData with
      | (_, Some err) => NewError StatusInternalServerError (Error err)
      | (decision, None) => JSON_decision decision
      end).
Proof.
  split; [eexists; reflexivity|]. split.
  - apply CheckTransaction_invalid.
  - apply CheckTransaction_valid.
Qed.

(** As [Register] wires it (in-memory repository, default rules), the
    check-transaction handler never answers 500: it ends either with 400,
    for a body that is not valid, or with the decision [CheckTransaction]
    returns for a valid body. *)
Theorem handler_CheckTransaction_default_wiring (mem : InMemoryFraudDataRepository)
    (given : list FraudRule.t) (url : string) (body : option (gmap string value)) :
  given = [] \/ given = DefaultRules ->
  match handlers.CheckTransaction
          (NewFraudAPIHandler (NewFraudService (NewRuleBasedFraudDetector mem given) url))
          body with
  | NewError code _ =>
      code = StatusBadRequest
      /\ forall transactionData, body = Some transactionData ->
                                 ~ validTransaction transactionData
  | JSON_decision dec =>
      exists transactionData,
        body = Some transactionData /\ validTransaction transactionData
        /\ fraud.CheckTransaction (NewRuleBasedFraudDetector mem given) transactionData
           = (dec, None)
  | _ => False
  end.
Proof.
  intros Hg.
  set (h := NewFraudAPIHandler (NewFraudService (NewRuleBasedFraudDetector mem given) url)).
  destruct body as [transactionData|].
  2:{ simpl. split; [reflexivity|]. intros ? [=]. }
  destruct (validTransaction_dec transactionData) as [Hv|Hv].
  - rewrite (CheckTransaction_valid h transactionData Hv).
    assert (Hd : detector (svc h) = NewRuleBasedFraudDetector mem given).
    { unfold h, NewFraudAPIHandler, NewFraudService. reflexivity. }
    rewrite Hd. cbn [FraudDetector.CheckTransaction RuleBased_detector].
    pose proof (CheckTransaction_default_no_error mem given transactionData Hg) as Hn.
    destruct (fraud.CheckTransaction (NewRuleBasedFraudDetector mem given) transactionData)
      as [dec e] eqn:Hc. cbn [snd] in Hn. subst e.
    exists transactionData. split; [reflexivity|]. split; [exact Hv|exact Hc].
  - destruct (CheckTransaction_invalid h transactionData Hv) as [msg ->].
    split; [reflexivity|]. intros ? [= <-]. exact Hv.
Qed.

(** The track-payment-link handler never answers 500: it answers 400
    without any request when the body did not parse or the URL is empty, and
    otherwise sends the verdict and the reason of [ValidatePaymentLink] on
    that URL. *)
Theorem handler_TrackPaymentLink_reply {D : Type} `{FraudDetector.t D}
    (h : FraudAPIHandler D) (net : Network) (url : string) :
  handlers.TrackPaymentLink h net None
    = (NewError StatusBadRequest "Invalid request body", net)
  /\ handlers.TrackPaymentLink h net (Some "")
     = (NewError StatusBadRequest "url is required", net)
  /\ (url <> "" ->
      handlers.TrackPaymentLink h net (Some url) =
      (JSON_map (verdictMap "is_suspicious"
                   (fst (fst (fst (ValidatePaymentLink (svc h) net url))))
                   (snd (fst (fst (ValidatePaymentLink (svc h) net url))))),
       snd (ValidatePaymentLink (svc h) net url))).
Proof.
  split; [reflexivity|]. split; [reflexivity|].
  intros Hu. unfold handlers.TrackPaymentLink, services.TrackPaymentLink.
  apply String.eqb_neq in Hu. rewrite Hu.
  rewrite lookup_insert_eq. cbn [asString]. rewrite Hu.
  pose proof (ValidatePaymentLink_nil_error (svc h) net url) as Hn.
  destruct (ValidatePaymentLink (svc h) net url) as [[[b r] e] net'].
  cbn [fst snd] in *. subst e. reflexivity.
Qed.

(** With the rule-based detector the validate-payment-channel handler
    never answers 500: the fields it checks are the ones whose absence makes
    the detector fail. It answers 400 for a body that is not valid and
    otherwise sends the detector's verdict and reason. *)
Theorem handler_ValidatePaymentChannel_reply {R : Type} `{FraudDataRepository R}
    (d : RuleBasedFraudDetector R) (url : string) (body : option (gmap string value)) :
  match handlers.ValidatePaymentChannel
          (NewFraudAPIHandler {| detector := d; transactionServiceURL := url |}) body with
  | NewError code _ =>
      code = StatusBadRequest
      /\ forall channelData, body = Some channelData -> ~ validChannel channelData
  | JSON_map m =>
      exists channelData isValid reason,
        body = Some channelData /\ validChannel channelData
        /\ detector_ops.ValidatePaymentChannel d channelData = (isValid, reason, None)
        /\ m = verdictMap "is_valid" isValid reason
  | _ => False
  end.
Proof.
  destruct body as [channelData|].
  2:{ simpl. split; [reflexivity|]. intros ? [=]. }
  set (h := NewFraudAPIHandler {| detector := d; transactionServiceURL := url |}).
  destruct (validChannel_dec channelData) as [Hv|Hv].
  - rewrite (ValidatePaymentChannel_valid h channelData Hv).
    cbn [h svc NewFraudAPIHandler detector FraudDetector.ValidatePaymentChannel
           RuleBased_detector].
    pose proof (detector_ValidatePaymentChannel_valid d channelData Hv) as Hn.
    destruct (detector_ops.ValidatePaymentChannel d channelData) as [[b r] e] eqn:Hc.
    cbn [snd] in Hn. subst e. exists channelData, b, r. auto.
  - destruct (ValidatePaymentChannel_invalid h channelData Hv) as [msg ->].
    split; [reflexivity|]. intros ? [= <-]. exact Hv.
Qed.

(** The transaction-details handler answers 404 exactly when the
    transaction service answered 404: a 404 upstream gives 404 with the text
    "transaction with reference R not found", a 404 reply implies a 404
    upstream, a fetched transaction is sent as it is, and an empty reference
    is refused with 400 without any request. *)
Theorem handler_GetTransactionDetails_status {D : Type} `{FraudDetector.t D}
    (h : FraudAPIHandler D) (net : Network) (reference : string) :
  handlers.GetTransactionDetails h net ""
    = (NewError StatusBadRequest "transaction reference is required", net)
  /\ (reference <> "" ->
      (forall resp,
         transactionServiceURL (svc h) <> "" ->
         http_NewRequest (requestURL (svc h) reference) = None ->
         transport net (requestURL (svc h) reference) = Ok resp ->
         StatusCode resp = 404%Z ->
         fst (handlers.GetTransactionDetails h net reference)
         = NewError StatusNotFound
             ("transaction with reference " ++ reference ++ " not found"))
      /\ (forall message,
            fst (handlers.GetTransactionDetails h net reference)
            = NewError StatusNotFound message ->
            exists resp, transport net (requestURL (svc h) reference) = Ok resp
                         /\ StatusCode resp = 404%Z)
      /\ (forall tx,
            fst (GetTransactionDetailsByReference (svc h) net reference) = Ok tx ->
            fst (handlers.GetTransactionDetails h net reference) = JSON_transaction tx)).
Proof.
  split; [reflexivity|]. intros Hr. apply String.eqb_neq in Hr.
  unfold handlers.GetTransactionDetails. rewrite Hr. split; [|split].
  - intros resp Hu Hn Ht H404.
    assert (Hne : StatusCode resp <> 200%Z) by lia.
    rewrite (GetTransactionDetailsByReference_status (svc h) net reference resp
               Hu Hn Ht Hne).
    rewrite H404. cbn [Z.eqb Pos.eqb Error]. rewrite String.eqb_refl. reflexivity.
  - intros message.
    destruct (GetTransactionDetailsByReference (svc h) net reference) as [[tx|e] net']
      eqn:Hg; [discriminate|].
    destruct (String.eqb_spec (Error e)
                ("transaction with reference " ++ reference ++ " not found")) as [He|He];
      [|discriminate].
    intros _. eapply GetTransactionDetailsByReference_not_found_inv; eauto.
  - intros tx.
    destruct (GetTransactionDetailsByReference (svc h) net reference) as [[tx'|e] net'];
      [|discriminate].
    intros [= <-]. reflexivity.
Qed.

End Handlers.

Lemma handler_CheckTransaction_validation_witness :
  exists message,
    handlers.CheckTransaction
      (NewFraudAPIHandler
         {| detector := {| repo := emptyRepo; rules := DefaultRules |};
            transactionServiceURL := "http://transaction-service:7000" |})
      (Some event_mistyped)
    = NewError StatusBadRequest message.
Proof.
  refine (proj1 (proj2 (handler_CheckTransaction_validation
            (NewFraudAPIHandler
               {| detector := {| repo := emptyRepo; rules := DefaultRules |};
                  transactionServiceURL := "http://transaction-service:7000" |})
            event_mistyped)) _).
  intros (c & a & cur & _ & _ & Ha & _). vm_compute in Ha. discriminate.
Defined.

Lemma handler_CheckTransaction_default_wiring_witness :
  match handlers.CheckTransaction
          (NewFraudAPIHandler
             (NewFraudService (NewRuleBasedFraudDetector emptyRepo DefaultRules) ""))
          (Some event_c1) with
  | NewError code _ =>
      code = StatusBadRequest
      /\ forall transactionData, Some event_c1 = Some transactionData ->
                                 ~ validTransaction transactionData
  | JSON_decision dec =>
      exists transactionData,
        Some event_c1 = Some transactionData /\ validTransaction transactionData
        /\ fraud.CheckTransaction (NewRuleBasedFraudDetector emptyRepo DefaultRules)
             transactionData = (dec, None)
  | _ => False
  end.
Proof.
  apply (handler_CheckTransaction_default_wiring emptyRepo DefaultRules ""
           (Some event_c1)).
  right. reflexivity.
Defined.

Lemma handler_TrackPaymentLink_reply_witness :
  fst (handlers.TrackPaymentLink
         (NewFraudAPIHandler
            {| detector := {| repo := emptyRepo; rules := DefaultRules |};
               transactionServiceURL := "http://transaction-service:7000" |})
         oneTransactionNet (Some link_no_amount))
  = JSON_map (verdictMap "is_suspicious" true
      "Missing required parameters in payment link (ref, merchant_id, amount, currency)").
Proof.
  refine (f_equal fst (proj2 (proj2 (handler_TrackPaymentLink_reply
            (NewFraudAPIHandler
               {| detector := {| repo := emptyRepo; rules := DefaultRules |};
                  transactionServiceURL := "http://transaction-service:7000" |})
            oneTransactionNet link_no_amount)) _)).
  discriminate.
Defined.

Lemma handler_GetTransactionDetails_status_witness :
  fst (handlers.GetTransactionDetails
         (NewFraudAPIHandler
            {| detector := {| repo := emptyRepo; rules := DefaultRules |};
               transactionServiceURL := "http://transaction-service:7000" |})
         oneTransactionNet "tx2")
  = NewError StatusNotFound "transaction with reference tx2 not found".
Proof.
  refine (proj1 (proj2 (handler_GetTransactionDetails_status
            (NewFraudAPIHandler
               {| detector := {| repo := emptyRepo; rules := DefaultRules |};
                  transactionServiceURL := "http://transaction-service:7000" |})
            oneTransactionNet "tx2") _)
            {| StatusCode := 404%Z; Body := "" |} _ eq_refl eq_refl eq_refl);
    discriminate.
Defined.

End handlers_extra.

Module config_extra.
Import services config fixtures fixtures_more.

(** [Load] treats an environment variable that is set to the empty string
    as unset: [Port] is the value of PORT if that is not empty and the
    default port otherwise, [RedisAddr] is never empty, and [RedisDB] is 0
    whenever REDIS_DB (or "0" in its absence) does not parse as an
    integer. *)
Theorem Load_defaults `{GoLib} (serviceName defaultPort : string) :
  (os_Getenv "PORT" = "" -> Port (Load serviceName defaultPort) = defaultPort)
  /\ (os_Getenv "PORT" <> "" -> Port (Load serviceName defaultPort) = os_Getenv "PORT")
  /\ RedisAddr (Load serviceName defaultPort) <> ""
  /\ (forall e, strconv_Atoi (getEnv "REDIS_DB" "0") = Err e ->
        RedisDB (Load serviceName defaultPort) = 0%Z)
  /\ (forall n, strconv_Atoi (getEnv "REDIS_DB" "0") = Ok n ->
        RedisDB (Load serviceName defaultPort) = n)
  /\ ServiceName (Load serviceName defaultPort) = serviceName.
Proof.
  unfold Load. cbn [Port RedisAddr RedisDB ServiceName]. unfold getEnv.
  split; [|split; [|split; [|split; [|split]]]].
  - intros ->. reflexivity.
  - intros Hp. apply String.eqb_neq in Hp. rewrite Hp. reflexivity.
  - destruct (String.eqb_spec (os_Getenv "REDIS_ADDR") "") as [He|He]; cbn [negb];
      [discriminate|exact He].
  - intros e ->. reflexivity.
  - intros n ->. reflexivity.
  - reflexivity.
Qed.

Lemma Load_defaults_witness :
  @Port (@Load oddEnvLib "fraud-service" "7012") = "7012"
  /\ @RedisDB (@Load oddEnvLib "fraud-service" "7012") = 0%Z.
Proof.
  split.
  - refine (proj1 (@Load_defaults oddEnvLib "fraud-service" "7012") eq_refl).
  - refine (proj1 (proj2 (proj2 (proj2 (@Load_defaults oddEnvLib "fraud-service" "7012"))))
              (errorString "invalid syntax") eq_refl).
Defined.

End config_extra.
